(** * Mirror-Store push notifications: the cloud functions of
      [cloud-functions-index.js] as a shallow embedding.

    The handlers talk to three collaborators: the Firestore collections
    [notification_tokens] and [notification_logs], the messaging gateway
    ([messaging.sendMulticast], [messaging.send]) and the clock.  The
    collections are part of the state; the gateway's answers, the clock and
    the faults of the store are read from an environment [Env].  Every call
    to a collaborator is recorded in a trace, so that "no store or gateway
    call was made" is a statement about that trace.

    The HTTP functions are exported behind the [cors] middleware:
    [sendNotification] and its like are the handlers [cors] calls,
    [exports_sendNotification] and its like the exports themselves.  The
    document deletes of [sendNotification] are fired and not awaited; the
    store applies them in its own time, which may be after the answer.

    One invocation is modelled in isolation: the interleaving of concurrent
    invocations is outside this development. *)

From Stdlib Require Import ZArith String List Bool Lia.
From Stdlib Require Import DecimalString.
From Stdlib Require Floats.PrimFloat Floats.FloatOps Floats.SpecFloat.
From Stdlib Require Numbers.Cyclic.Int63.Uint63.
Import ListNotations.
Local Open Scope string_scope.
Local Open Scope list_scope.
Local Open Scope Z_scope.

(** ** JavaScript values *)

(** The primitive values a JSON body or a Firestore field carries.  Numbers
    are the integers; objects and arrays as field values are not
    represented (they are truthy and never [===] to a fresh copy). *)
Inductive JValue : Type :=
| VUndefined
| VNull
| VBool (b : bool)
| VNum (n : Z)
| VStr (s : string).

(** [if (v)]: ToBoolean. *)
Definition truthy (v : JValue) : bool :=
  match v with
  | VUndefined | VNull => false
  | VBool b => b
  | VNum n => negb (n =? 0)
  | VStr s => negb (String.eqb s "")
  end.

(** [a === b] on primitives; also the equality of a Firestore [==] filter. *)
Definition strict_eq (a b : JValue) : bool :=
  match a, b with
  | VUndefined, VUndefined => true
  | VNull, VNull => true
  | VBool x, VBool y => Bool.eqb x y
  | VNum x, VNum y => x =? y
  | VStr x, VStr y => String.eqb x y
  | _, _ => false
  end.

(** [a || b]. *)
Definition jor (a b : JValue) : JValue := if truthy a then a else b.

(** Decimal text of an integer, as a template literal prints a count. *)
Definition showZ (z : Z) : string := NilZero.string_of_int (Z.to_int z).

(** [`${v}`] and [v.toString()]: ToString.  A number is printed as the
    decimal digits of the integer, which is JavaScript's text for the
    integers a double holds exactly, see [exact_text]. *)
Definition toStr (v : JValue) : string :=
  match v with
  | VUndefined => "undefined"
  | VNull => "null"
  | VBool true => "true"
  | VBool false => "false"
  | VNum n => showZ n
  | VStr s => s
  end.

(** The values on which [toStr] is the text JavaScript prints: everything
    but a number, and the integers up to [2^53] in magnitude.  Every such
    integer is a double and is printed digit by digit.  A larger integer is
    read from JSON as the nearest double, and from [1e21] on it is printed
    with an exponent; a number with a fraction is not a [JValue]. *)
Definition exact_text (v : JValue) : bool :=
  match v with
  | VNum n => Z.abs n <=? 2 ^ 53
  | _ => true
  end.

(** A JSON-like tree for messages and response bodies.  [JIso ms] stands for
    the text [new Date(ms).toISOString()] and [JDate ms] for the Date object
    itself; the calendar rendering is not expanded. *)
#[local] Unset Elimination Schemes.
Inductive Json : Type :=
| JV (v : JValue)
| JIso (ms : Z)
| JDate (ms : Z)
| JO (fields : list (string * Json)).
#[local] Set Elimination Schemes.

(** ** Documents, gateway answers, events *)

(** A document of [notification_tokens]: its id (what [doc.ref] points to),
    the [token] field and the [timestamp] field in milliseconds ([None] when
    the field is missing or not a date). *)
Record TokenDoc : Type := mkTokenDoc {
  docId : string;
  token : JValue;
  timestamp : option Z
}.

(** What a query snapshot hands to [forEach]: [doc.exists] and [doc.data()]. *)
Record DocSnap : Type := mkDocSnap {
  doc_exists : bool;
  doc_data : TokenDoc
}.

(** A document of [notification_logs].  The two counts are optional because
    the reader takes them through [|| 0]. *)
Record LogEntry : Type := mkLogEntry {
  log_appId : JValue;
  log_appName : JValue;
  log_type : string;
  log_version : JValue;
  sentCount : option Z;
  log_failureCount : option Z;
  log_timestamp : Z
}.

(** The error taxonomy of the specification's DeliveryGateway. *)
Inductive ErrorKind : Type :=
| InvalidHandle
| TransientFailure
| QuotaExceeded.

(** One entry of [response.responses]. *)
Record SendResponse : Type := mkSendResponse {
  success : bool;
  errorKind : option ErrorKind
}.

(** The answer of [messaging.sendMulticast]. *)
Record BatchResponse : Type := mkBatchResponse {
  responses : list SendResponse;
  successCount : Z;
  failureCount : Z
}.

(** A fulfilled or rejected promise; the payload of a rejection is
    [error.message]. *)
Inductive Result (A : Type) : Type :=
| Ok (a : A)
| Throw (message : string).
Arguments Ok {A} a.
Arguments Throw {A} message.

(** The calls a handler makes to its collaborators, in program order. *)
Inductive Event : Type :=
| EGetTokens                                   (* notification_tokens.get() *)
| EQueryToken (v : JValue)                     (* .where('token','==',v).get() *)
| EQueryAged (cutoff : Z)                      (* .where('timestamp','<',cutoff).get() *)
| EDelete (id : string)                        (* doc.ref.delete() *)
| EBatchCommit (ids : list string)             (* batch.commit() *)
| EQueryLogs (cutoff : Z)                      (* notification_logs.where(...).get() *)
| ELogAdd (entry : LogEntry)                   (* notification_logs.add(entry) *)
| ESendMulticast (tokens : list JValue) (message : Json)
| ESend (message : Json)
| EConsoleLog (text : string)
| EConsoleError (label : string) (message : string).

(** The state one invocation runs against. *)
Record World : Type := mkWorld {
  notification_tokens : list TokenDoc;
  notification_logs : list LogEntry;
  trace : list Event
}.

(** The collaborators' behaviour.  [now] is the clock, read as one instant
    for the whole invocation.  Each oracle sees the trace up to the call it
    answers, so the same call may fare differently at different times.  A
    fault is the message of the rejection.

    A [doc.ref.delete()] is fired and not awaited, so its outcome belongs to
    the store's own time: [docDelete_acked tr id] tells whether the delete
    fired for [id] has been acknowledged by the time the store is read with
    trace [tr], and [docDelete_fault tr id] whether that acknowledgement is a
    rejection. *)
Record Env : Type := mkEnv {
  now : Z;
  tokensGet_fault : list Event -> option string;
  tokenQuery_fault : list Event -> JValue -> option string;
  docDelete_fault : list Event -> string -> bool;
  docDelete_acked : list Event -> string -> bool;
  agedQuery_fault : list Event -> option string;
  batchCommit_fault : list Event -> list string -> option string;
  logsQuery_fault : list Event -> option string;
  logAdd_fault : list Event -> option string;
  fcm_sendMulticast : list Event -> list JValue -> Json -> Result BatchResponse;
  fcm_send : list Event -> Json -> option string
}.

(** ** The monad of a handler body: state, trace and exceptions.  The state
    survives an exception, as the store's does under try/catch. *)
Definition M (A : Type) : Type := World -> Result A * World.

Definition ret {A} (a : A) : M A := fun w => (Ok a, w).

Definition bind {A B} (m : M A) (k : A -> M B) : M B :=
  fun w => match m w with
           | (Ok a, w') => k a w'
           | (Throw e, w') => (Throw e, w')
           end.

Definition throw {A} (e : string) : M A := fun w => (Throw e, w).

Definition try_catch {A} (body : M A) (handler : string -> M A) : M A :=
  fun w => match body w with
           | (Ok a, w') => (Ok a, w')
           | (Throw e, w') => handler e w'
           end.

Declare Scope js_scope.
Delimit Scope js_scope with js.
Notation "x <- m ;; k" := (bind m (fun x => k))
  (at level 61, m at next level, right associativity) : js_scope.
Notation "m ;; k" := (bind m (fun _ => k))
  (at level 61, right associativity) : js_scope.
Local Open Scope js_scope.

(** [arr.forEach(f)] / [for (const x of arr)] with an effectful body. *)
Fixpoint forEachM {A} (f : A -> M unit) (l : list A) : M unit :=
  match l with
  | [] => ret tt
  | x :: rest => f x ;; forEachM f rest
  end.

Definition emit (e : Event) (w : World) : World :=
  mkWorld (notification_tokens w) (notification_logs w) (trace w ++ [e]).

Definition set_tokens (docs : list TokenDoc) (w : World) : World :=
  mkWorld docs (notification_logs w) (trace w).

Definition set_logs (logs : list LogEntry) (w : World) : World :=
  mkWorld (notification_tokens w) logs (trace w).

Definition snapshot_of (docs : list TokenDoc) : list DocSnap :=
  map (mkDocSnap true) docs.

(** Removal of the document a reference points to. *)
Definition remove_doc (id : string) (docs : list TokenDoc) : list TokenDoc :=
  filter (fun d => negb (String.eqb (docId d) id)) docs.

Definition remove_docs (ids : list string) (docs : list TokenDoc) : list TokenDoc :=
  filter (fun d => negb (existsb (String.eqb (docId d)) ids)) docs.

(** The deletes of the running broadcast: the ids of the [doc.ref.delete()]
    calls fired since its multicast, in the order fired. *)
Fixpoint inflight_from (tr : list Event) (fired : list string) : list string :=
  match tr with
  | [] => fired
  | ESendMulticast _ _ :: rest => inflight_from rest []
  | EDelete id :: rest => inflight_from rest (fired ++ [id])
  | _ :: rest => inflight_from rest fired
  end.

Definition inflight (tr : list Event) : list string := inflight_from tr [].

(** Of the deletes in flight, those acknowledged and fulfilled by the time
    the store is read with trace [tr] ... *)
Definition arrived_ids (env : Env) (tr : list Event) : list string :=
  filter (fun id => docDelete_acked env tr id && negb (docDelete_fault env tr id))
         (inflight tr).

(** ... and those fulfilled once every one of them has been acknowledged. *)
Definition fulfilled_ids (env : Env) (tr : list Event) : list string :=
  filter (fun id => negb (docDelete_fault env tr id)) (inflight tr).

(** The store as the next read finds it: the deletes that have arrived are
    applied. *)
Definition arrive (env : Env) (w : World) : World :=
  set_tokens (remove_docs (arrived_ids env (trace w)) (notification_tokens w)) w.

(** The store once every delete of the broadcast has been acknowledged: the
    fulfilled ones are applied, a rejected one leaves its document.  The
    handler has answered by then; it never learns any of this. *)
Definition acknowledged (env : Env) (w : World) : World :=
  set_tokens (remove_docs (fulfilled_ids env (trace w)) (notification_tokens w)) w.

(** The filter [where('timestamp', '<', cutoff)]. *)
Definition older_than (cutoff : Z) (d : TokenDoc) : bool :=
  match timestamp d with
  | Some t => t <? cutoff
  | None => false
  end.

(** The filter [where('timestamp', '>', cutoff)] on the log. *)
Definition newer_than (cutoff : Z) (l : LogEntry) : bool :=
  cutoff <? log_timestamp l.

Section Handlers.

Variable env : Env.

Definition consoleLog (text : string) : M unit :=
  fun w => (Ok tt, emit (EConsoleLog text) w).

Definition consoleError (label message : string) : M unit :=
  fun w => (Ok tt, emit (EConsoleError label message) w).

(** [await db.collection('notification_tokens').get()] *)
Definition getTokens : M (list DocSnap) :=
  fun w =>
    let w' := emit EGetTokens w in
    match tokensGet_fault env (trace w) with
    | Some e => (Throw e, w')
    | None => (Ok (snapshot_of (notification_tokens w)), w')
    end.

(** [await db.collection('notification_tokens').where('token','==',v).get()]:
    the query reads the store as it is by then, with the deletes that have
    arrived in the meantime applied. *)
Definition queryByToken (v : JValue) : M (list DocSnap) :=
  fun w =>
    let w' := emit (EQueryToken v) (arrive env w) in
    match tokenQuery_fault env (trace w) v with
    | Some e => (Throw e, w')
    | None =>
        (Ok (snapshot_of (filter (fun d => strict_eq (token d) v)
                                 (notification_tokens w'))), w')
    end.

(** [doc.ref.delete()], line 103: the delete is fired and the promise
    dropped.  The call itself changes nothing in the store; the document goes
    when the store acknowledges the delete ([arrive], [acknowledged]), which
    may be after the handler has answered.  A rejection is an unhandled
    rejection: the handler does not see it, and what the platform does about
    it (it may answer in the handler's place) is not part of this model, so
    the answer of a run that fires deletes is stated for deletes that are
    not rejected. *)
Definition deleteRef (doc : DocSnap) : M unit :=
  fun w => (Ok tt, emit (EDelete (docId (doc_data doc))) w).

(** [await messaging.sendMulticast({tokens, ...message})] *)
Definition sendMulticast (tokens : list JValue) (message : Json)
  : M BatchResponse :=
  fun w => (fcm_sendMulticast env (trace w) tokens message,
            emit (ESendMulticast tokens message) w).

(** [await messaging.send(message)] *)
Definition send (message : Json) : M unit :=
  fun w =>
    let w' := emit (ESend message) w in
    match fcm_send env (trace w) message with
    | Some e => (Throw e, w')
    | None => (Ok tt, w')
    end.

(** [await db.collection('notification_tokens').where('timestamp','<',cutoff).get()]:
    only documents whose [timestamp] is a date take part in the comparison. *)
Definition queryAged (cutoff : Z) : M (list DocSnap) :=
  fun w =>
    let w' := emit (EQueryAged cutoff) w in
    match agedQuery_fault env (trace w) with
    | Some e => (Throw e, w')
    | None =>
        (Ok (snapshot_of (filter (older_than cutoff) (notification_tokens w))),
         w')
    end.

(** [await batch.commit()]: all the queued deletions, or none. *)
Definition batchCommit (ids : list string) : M unit :=
  fun w =>
    let w' := emit (EBatchCommit ids) w in
    match batchCommit_fault env (trace w) ids with
    | Some e => (Throw e, w')
    | None => (Ok tt, set_tokens (remove_docs ids (notification_tokens w')) w')
    end.

(** [await db.collection('notification_logs').where('timestamp','>',cutoff).get()] *)
Definition queryLogs (cutoff : Z) : M (list LogEntry) :=
  fun w =>
    let w' := emit (EQueryLogs cutoff) w in
    match logsQuery_fault env (trace w) with
    | Some e => (Throw e, w')
    | None =>
        (Ok (filter (newer_than cutoff) (notification_logs w)), w')
    end.

(** [await db.collection('notification_logs').add(entry)] *)
Definition logAdd (entry : LogEntry) : M unit :=
  fun w =>
    let w' := emit (ELogAdd entry) w in
    match logAdd_fault env (trace w) with
    | Some e => (Throw e, w')
    | None => (Ok tt, set_logs (notification_logs w' ++ [entry]) w')
    end.

End Handlers.

(** ** Requests and responses *)

(** A parsed JSON object; a field that is not there reads as [undefined].
    [req.body] is always such an object, empty when nothing was posted. *)
Definition JObject : Type := list (string * JValue).

Fixpoint field (name : string) (obj : JObject) : JValue :=
  match obj with
  | [] => VUndefined
  | (k, v) :: rest => if String.eqb k name then v else field name rest
  end.

Record Request : Type := mkRequest {
  method : string;
  body : JObject
}.

(** [res.status(code).json(payload)]; [res.json(payload)] answers 200. *)
Record Response : Type := mkResponse {
  status : Z;
  json : Json
}.

Definition jstr (s : string) : Json := JV (VStr s).
Definition jnum (n : Z) : Json := JV (VNum n).
Definition jbool (b : bool) : Json := JV (VBool b).

Definition icon_url : string :=
  "https://i.ibb.co.com/hJCt1BMP/Picsart-26-01-03-19-21-09-763.png".

(** The [forEach] that fills [tokens]: one push per existing document with
    a truthy [token], in snapshot order. *)
Fixpoint collectTokens (snapshot : list DocSnap) : list JValue :=
  match snapshot with
  | [] => []
  | doc :: rest =>
      if doc_exists doc then
        let token := token (doc_data doc) in
        if truthy token then token :: collectTokens rest
        else collectTokens rest
      else collectTokens rest
  end.

(** [arr.map((x, idx) => f(x, idx))], counting from [idx]. *)
Fixpoint map_idx {A B} (f : A -> nat -> B) (idx : nat) (l : list A) : list B :=
  match l with
  | [] => []
  | x :: rest => f x idx :: map_idx f (S idx) rest
  end.

(** [response.responses.map((resp, idx) => resp.success ? null : tokens[idx])
      .filter(token => token)] *)
Definition failedTokens (resps : list SendResponse) (tokens : list JValue)
  : list JValue :=
  filter truthy
    (map_idx (fun resp idx => if success resp then VNull
                              else nth idx tokens VUndefined) 0%nat resps).

Section Endpoints.

Variable env : Env.

(** The [message] object of [sendNotification]. *)
Definition notificationMessage
  (appId appName type title body icon downloadUrl : JValue) : Json :=
  JO [ ("notification",
        JO [ ("title", JV (jor title appName));
             ("body", JV (jor body
                            (VStr ("Update available for " ++ toStr appName))));
             ("icon", JV (jor icon (VStr icon_url))) ]);
       ("data",
        JO [ ("appId", JV appId);
             ("appName", JV appName);
             ("type", JV type);
             ("downloadUrl", JV (jor downloadUrl (VStr "")));
             ("timestamp", JIso (now env)) ]);
       ("android",
        JO [ ("priority", jstr "high");
             ("notification",
              JO [ ("sound", jstr "default");
                   ("defaultSound", jbool true);
                   ("clickAction", jstr "FLUTTER_NOTIFICATION_CLICK") ]) ]);
       ("webpush",
        JO [ ("fcmOptions", JO [ ("link", jstr "/") ]);
             ("notification",
              JO [ ("icon", JV (jor icon (VStr icon_url)));
                   ("badge", jstr icon_url) ]) ]) ].

(** The body of the loop at lines 100-105: look the token up, then fire a
    delete at every match. *)
Definition pruneToken (token : JValue) : M unit :=
  snapshot <- queryByToken env token ;;
  forEachM deleteRef snapshot.

(** "Clean up failed tokens", lines 95-106. *)
Definition reconcile (response : BatchResponse) (tokens : list JValue) : M unit :=
  if failureCount response >? 0 then
    forEachM pruneToken (failedTokens (responses response) tokens)
  else ret tt.

Definition sent_body (response : BatchResponse) (tokens : list JValue) : Json :=
  JO [ ("success", jbool true);
       ("successCount", jnum (successCount response));
       ("failureCount", jnum (failureCount response));
       ("totalSent", jnum (Z.of_nat (length tokens)));
       ("message", jstr ("Notification sent to "
                         ++ showZ (successCount response) ++ " devices")) ].

Definition error_body (error : string) : Json :=
  JO [ ("success", jbool false); ("error", jstr error) ].

(** The handler of [exports.sendNotification], lines 24-122: the function
    handed to [cors], which calls it for every request but a preflight
    ([exports_sendNotification] below is the whole export). *)
Definition sendNotification (req : Request) : M Response :=
  try_catch
    (if negb (String.eqb (method req) "POST") then
       ret (mkResponse 405 (JO [ ("error", jstr "Method not allowed") ]))
     else
       let appId := field "appId" (body req) in
       let appName := field "appName" (body req) in
       let type := field "type" (body req) in
       let title := field "title" (body req) in
       let body_ := field "body" (body req) in
       let icon := field "icon" (body req) in
       let downloadUrl := field "downloadUrl" (body req) in
       if negb (truthy appId) || negb (truthy type) then
         ret (mkResponse 400
                (JO [ ("error", jstr "Missing required fields: appId, type") ]))
       else
         tokensSnapshot <- getTokens env ;;
         let tokens := collectTokens tokensSnapshot in
         if (length tokens =? 0)%nat then
           ret (mkResponse 404
                  (JO [ ("error", jstr "No notification tokens found") ]))
         else
           let message :=
             notificationMessage appId appName type title body_ icon downloadUrl in
           response <- sendMulticast env tokens message ;;
           consoleLog ("Notification sent - Success: "
                       ++ showZ (successCount response)
                       ++ ", Failed: " ++ showZ (failureCount response)) ;;
           reconcile response tokens ;;
           ret (mkResponse 200 (sent_body response tokens)))
    (fun error =>
       consoleError "Error sending notification:" error ;;
       ret (mkResponse 500 (error_body error))).

(** [v.toString()]: a TypeError on [null] and [undefined]. *)
Definition toStringOf (v : JValue) : M string :=
  match v with
  | VUndefined => throw "Cannot read properties of undefined (reading 'toString')"
  | VNull => throw "Cannot read properties of null (reading 'toString')"
  | _ => ret (toStr v)
  end.

Definition progressData (appId appName : JValue) (progress : string) : Json :=
  JO [ ("type", jstr "DOWNLOAD_PROGRESS");
       ("appId", JV appId);
       ("appName", JV appName);
       ("progress", jstr progress);
       ("timestamp", JIso (now env)) ].

(** The handler of [exports.sendDownloadProgress], lines 130-197: the
    function handed to [cors]. *)
Definition sendDownloadProgress (req : Request) : M Response :=
  try_catch
    (let appId := field "appId" (body req) in
     let appName := field "appName" (body req) in
     let progress := field "progress" (body req) in
     let deviceToken := field "deviceToken" (body req) in
     if negb (truthy appId) || strict_eq progress VUndefined then
       ret (mkResponse 400 (JO [ ("error", jstr "Missing required fields") ]))
     else if truthy deviceToken then
       p <- toStringOf progress ;;
       send env (JO [ ("token", JV deviceToken);
                      ("data", progressData appId appName p);
                      ("android", JO [ ("priority", jstr "high") ]) ]) ;;
       ret (mkResponse 200
              (JO [ ("success", jbool true);
                    ("message", jstr "Progress notification sent") ]))
     else
       tokensSnapshot <- getTokens env ;;
       let tokens := collectTokens tokensSnapshot in
       if (length tokens =? 0)%nat then
         ret (mkResponse 404 (JO [ ("error", jstr "No devices found") ]))
       else
         p <- toStringOf progress ;;
         response <- sendMulticast env tokens
                       (JO [ ("data", progressData appId appName p) ]) ;;
         ret (mkResponse 200
                (JO [ ("success", jbool true);
                      ("successCount", jnum (successCount response));
                      ("failureCount", jnum (failureCount response)) ])))
    (fun error =>
       consoleError "Error sending progress:" error ;;
       ret (mkResponse 500 (error_body error))).

(** The update event: [change.before.data()], [change.after.data()]. *)
Record Change : Type := mkChange {
  before : JObject;
  after : JObject
}.

Record EventContext : Type := mkEventContext {
  params_appId : string
}.

Definition updateMessage (appId : string) (newData : JObject) : Json :=
  JO [ ("notification",
        JO [ ("title", jstr (toStr (field "name" newData) ++ " Updated"));
             ("body", jstr ("Version " ++ toStr (field "version" newData)
                            ++ " is now available"));
             ("icon", jstr icon_url) ]);
       ("data",
        JO [ ("type", jstr "APP_DOWNLOAD_AVAILABLE");
             ("appId", jstr appId);
             ("appName", JV (field "name" newData));
             ("appIcon", JV (jor (field "icon" newData) (VStr "")));
             ("version", JV (field "version" newData));
             ("timestamp", JIso (now env)) ]);
       ("android",
        JO [ ("priority", jstr "high");
             ("notification",
              JO [ ("sound", jstr "default");
                   ("defaultSound", jbool true) ]) ]) ].

(** [exports.notifyOnAppUpdate], lines 204-277.  [Ok None] is the bare
    [return;]; the [catch] logs and rethrows. *)
Definition notifyOnAppUpdate (change : Change) (context : EventContext)
  : M (option BatchResponse) :=
  try_catch
    (let newData := after change in
     let oldData := before change in
     let appId := params_appId context in
     if strict_eq (field "version" oldData) (field "version" newData) then
       ret None
     else
       consoleLog ("App " ++ appId ++ " updated from "
                   ++ toStr (field "version" oldData) ++ " to "
                   ++ toStr (field "version" newData)) ;;
       tokensSnapshot <- getTokens env ;;
       let tokens := collectTokens tokensSnapshot in
       if (length tokens =? 0)%nat then
         consoleLog "No tokens to notify" ;;
         ret None
       else
         response <- sendMulticast env tokens (updateMessage appId newData) ;;
         consoleLog ("Update notification sent - Success: "
                     ++ showZ (successCount response)
                     ++ ", Failed: " ++ showZ (failureCount response)) ;;
         logAdd env (mkLogEntry (VStr appId) (field "name" newData) "UPDATE"
                       (field "version" newData)
                       (Some (successCount response))
                       (Some (failureCount response))
                       (now env)) ;;
         ret (Some response))
    (fun error =>
       consoleError "Error notifying on app update:" error ;;
       throw error).

(** The [forEach] of lines 299-302: queue one delete per matched document
    and count it. *)
Fixpoint queueDeletes (snapshot : list DocSnap) (batch : list string)
  (deletedCount : Z) : list string * Z :=
  match snapshot with
  | [] => (batch, deletedCount)
  | doc :: rest =>
      queueDeletes rest (batch ++ [docId (doc_data doc)]) (deletedCount + 1)
  end.

Record CleanupReport : Type := mkCleanupReport {
  report_message : string;
  report_timestamp : Z
}.

Definition ninety_days_ms : Z := 90 * 24 * 60 * 60 * 1000.
Definition thirty_days_ms : Z := 30 * 24 * 60 * 60 * 1000.

(** [exports.cleanupTokens], lines 283-316. *)
Definition cleanupTokens : M CleanupReport :=
  try_catch
    (consoleLog "Starting token cleanup..." ;;
     let ninetyDaysAgo := now env - ninety_days_ms in
     snapshot <- queryAged env ninetyDaysAgo ;;
     let '(batch, deletedCount) := queueDeletes snapshot [] 0 in
     batchCommit env batch ;;
     consoleLog ("Cleaned up " ++ showZ deletedCount ++ " expired tokens") ;;
     ret (mkCleanupReport ("Cleaned up " ++ showZ deletedCount ++ " tokens")
            (now env)))
    (fun error =>
       consoleError "Error cleaning up tokens:" error ;;
       throw error).

End Endpoints.

(** ** Statistics: the success rate and its formatting *)

(** An integer as a JavaScript number: the nearest double, ties to even.
    Integers of magnitude up to 2^53 are held exactly. *)
Definition of_count (n : Z) : PrimFloat.float :=
  FloatOps.SF2Prim
    (SpecFloat.binary_normalize FloatOps.prec FloatOps.emax n 0 false).

Definition two_digits (n : Z) : string :=
  if n <? 10 then "0" ++ showZ n else showZ n.

(** The integer [n] for which [n / 100] is nearest to [m * 2^e], the larger
    one on a tie. *)
Definition hundredths (m : positive) (e : Z) : Z :=
  if 0 <=? e then Z.pos m * 2 ^ e * 100
  else (2 * (Z.pos m * 100) + 2 ^ (- e)) / (2 * 2 ^ (- e)).

(** [x.toFixed(2)] on the exact value of the double [x], after ECMA-262
    (Number.prototype.toFixed): sign, integer part, a point and two digits.
    For a finite magnitude of 1e21 or more JavaScript prints the exponent
    form of ToString instead; that rendering is not reproduced here, the
    digits stay positional. *)
Definition toFixed2 (x : PrimFloat.float) : string :=
  match FloatOps.Prim2SF x with
  | SpecFloat.S754_nan => "NaN"
  | SpecFloat.S754_infinity s => if s then "-Infinity" else "Infinity"
  | SpecFloat.S754_zero _ => "0.00"
  | SpecFloat.S754_finite s m e =>
      let n := hundredths m e in
      (if s then "-" else "")
      ++ showZ (n / 100) ++ "." ++ two_digits (n mod 100)
  end.

(** [(totalSent / (totalSent + totalFailed)) * 100], in doubles. *)
Definition ratePercent (totalSent totalFailed : Z) : PrimFloat.float :=
  PrimFloat.mul
    (PrimFloat.div (of_count totalSent) (of_count (totalSent + totalFailed)))
    (of_count 100).

(** Line 350: [totalSent > 0 ? ((totalSent / (totalSent + totalFailed)) * 100)
    .toFixed(2) + '%' : '0%'] *)
Definition successRate (totalSent totalFailed : Z) : string :=
  if totalSent >? 0 then toFixed2 (ratePercent totalSent totalFailed) ++ "%"
  else "0%".

(** [c || 0] on a count field. *)
Definition orZero (c : option Z) : Z :=
  match c with
  | Some n => n
  | None => 0
  end.

(** The [forEach] of lines 342-346 over the log snapshot.  The source adds
    doubles; the sums here are those of integers, and the two agree as long
    as the counts are not negative and the totals stay within [2^53], where
    every double in sight is an integer and every sum is exact.  The
    statements about the totals carry that bound. *)
Fixpoint sumLogs (logs : list LogEntry) (totalSent totalFailed : Z) : Z * Z :=
  match logs with
  | [] => (totalSent, totalFailed)
  | data :: rest =>
      sumLogs rest (totalSent + orZero (sentCount data))
                   (totalFailed + orZero (log_failureCount data))
  end.

Section Statistics.

Variable env : Env.

Definition stats_body (totalTokens totalSent totalFailed : Z) : Json :=
  JO [ ("totalTokens", jnum totalTokens);
       ("successRate", jstr (successRate totalSent totalFailed));
       ("last30Days",
        JO [ ("sent", jnum totalSent);
             ("failed", jnum totalFailed);
             ("total", jnum (totalSent + totalFailed)) ]) ].

(** The handler of [exports.getNotificationStats], lines 323-364: the
    function handed to [cors]. *)
Definition getNotificationStats (req : Request) : M Response :=
  try_catch
    (if negb (String.eqb (method req) "GET") then
       ret (mkResponse 405 (JO [ ("error", jstr "Method not allowed") ]))
     else
       tokensSnapshot <- getTokens env ;;
       let totalTokens := Z.of_nat (length tokensSnapshot) in
       let thirtyDaysAgo := now env - thirty_days_ms in
       logsSnapshot <- queryLogs env thirtyDaysAgo ;;
       let '(totalSent, totalFailed) := sumLogs logsSnapshot 0 0 in
       ret (mkResponse 200 (stats_body totalTokens totalSent totalFailed)))
    (fun error =>
       consoleError "Error getting stats:" error ;;
       ret (mkResponse 500 (error_body error))).

End Statistics.

(** ** Reading a trace and a store *)

(** The gateway calls of a trace. *)
Definition multicasts (tr : list Event) : list (list JValue * Json) :=
  flat_map (fun e => match e with
                     | ESendMulticast tokens message => [(tokens, message)]
                     | _ => []
                     end) tr.

Definition is_gateway_call (e : Event) : bool :=
  match e with
  | ESendMulticast _ _ | ESend _ => true
  | _ => false
  end.


(** [TokenStore.listAll()]: the token values a fetch would collect. *)
Definition listAll (w : World) : list JValue :=
  collectTokens (snapshot_of (notification_tokens w)).

(** Where the pruning loop stands after the tokens [visited], on a store that
    held [docs] when the loop began: what has gone from the store are
    documents whose delete is in flight; every delete in flight is that of
    a document of [docs] holding a visited token; and every document still
    stored that holds a visited token has its delete in flight. *)
Definition pruning (docs : list TokenDoc) (visited : list JValue) (w : World)
  : Prop :=
  (exists gone, incl gone (inflight (trace w))
                /\ notification_tokens w = remove_docs gone docs)
  /\ (forall id, In id (inflight (trace w)) ->
                 exists d, In d docs /\ docId d = id /\ In (token d) visited)
  /\ (forall d, In d (notification_tokens w) -> In (token d) visited ->
                In (docId d) (inflight (trace w))).

(** The gateway's contract on its two counters: they count the entries of
    [responses]. *)
Definition well_counted (response : BatchResponse) : Prop :=
  successCount response
  = Z.of_nat (length (filter success (responses response)))
  /\ failureCount response
     = Z.of_nat (length (filter (fun r => negb (success r)) (responses response))).

(** Fault-free lookups and deletes. *)
Definition lookups_ok (env : Env) : Prop :=
  forall tr v, tokenQuery_fault env tr v = None.

Definition deletes_ok (env : Env) : Prop :=
  forall tr id, docDelete_fault env tr id = false.

(** The message [sendNotification] builds from a request. *)
Definition message_of (env : Env) (req : Request) : Json :=
  notificationMessage env
    (field "appId" (body req)) (field "appName" (body req))
    (field "type" (body req)) (field "title" (body req))
    (field "body" (body req)) (field "icon" (body req))
    (field "downloadUrl" (body req)).

(** A broadcast whose multicast send succeeds: a valid POST, a fetch that
    works and collects [tokens], not empty, and a gateway that answers
    [response] when called. *)
Definition broadcast (env : Env) (req : Request) (w : World)
  (tokens : list JValue) (response : BatchResponse) : Prop :=
  method req = "POST"
  /\ truthy (field "appId" (body req)) = true
  /\ truthy (field "type" (body req)) = true
  /\ tokensGet_fault env (trace w) = None
  /\ tokens = listAll w
  /\ tokens <> []
  /\ fcm_sendMulticast env (trace w ++ [EGetTokens]) tokens (message_of env req)
     = Ok response.

(** The world at the moment reconciliation starts. *)
Definition sent_world (env : Env) (req : Request) (w : World)
  (tokens : list JValue) (response : BatchResponse) : World :=
  emit (EConsoleLog ("Notification sent - Success: "
                     ++ showZ (successCount response)
                     ++ ", Failed: " ++ showZ (failureCount response)))
    (emit (ESendMulticast tokens (message_of env req)) (emit EGetTokens w)).

(** A field of a JSON object. *)
Fixpoint jfield (name : string) (fields : list (string * Json)) : option Json :=
  match fields with
  | [] => None
  | (k, v) :: rest => if String.eqb k name then Some v else jfield name rest
  end.

(** [totalSent] of a response body. *)
Definition totalSent_of (r : Response) : option Z :=
  match json r with
  | JO fields => match jfield "totalSent" fields with
                 | Some (JV (VNum n)) => Some n
                 | _ => None
                 end
  | _ => None
  end.

(** Deduplication by value, as the specification words the fetch: the first
    occurrence of each value is kept. *)
Fixpoint dedupByValue (seen tokens : list JValue) : list JValue :=
  match tokens with
  | [] => []
  | t :: rest =>
      if existsb (strict_eq t) seen then dedupByValue seen rest
      else t :: dedupByValue (t :: seen) rest
  end.

(** Sum of a list of counts. *)
Definition total (counts : list Z) : Z := fold_right Z.add 0 counts.

(** ** Named answers *)

Definition missing_notification_fields : Response :=
  mkResponse 400 (JO [ ("error", jstr "Missing required fields: appId, type") ]).

Definition missing_progress_fields : Response :=
  mkResponse 400 (JO [ ("error", jstr "Missing required fields") ]).

Definition no_tokens_found : Response :=
  mkResponse 404 (JO [ ("error", jstr "No notification tokens found") ]).

(** The world [notifyOnAppUpdate] leaves when there is nobody to notify. *)
Definition nobody_to_notify (change : Change) (context : EventContext)
  (w : World) : World :=
  emit (EConsoleLog "No tokens to notify")
    (emit EGetTokens
       (emit (EConsoleLog
                ("App " ++ params_appId context ++ " updated from "
                 ++ toStr (field "version" (before change)) ++ " to "
                 ++ toStr (field "version" (after change)))) w)).

(** ** Sample collaborators and inputs, to run the handlers on *)

(** A store that never faults and acknowledges a delete before it is next
    read, and a gateway that answers [answer] to every multicast. *)
Definition steady_env (clock : Z) (answer : Result BatchResponse) : Env :=
  mkEnv clock
        (fun _ => None) (fun _ _ => None) (fun _ _ => false) (fun _ _ => true)
        (fun _ => None) (fun _ _ => None) (fun _ => None) (fun _ => None)
        (fun _ _ _ => answer) (fun _ _ => None).

Definition delivered : SendResponse := mkSendResponse true None.

Definition failed_with (k : ErrorKind) : SendResponse :=
  mkSendResponse false (Some k).

Definition empty_world : World := mkWorld [] [] [].

Definition update_request : Request :=
  mkRequest "POST" [ ("appId", VStr "mirror"); ("appName", VStr "Mirror");
                     ("type", VStr "UPDATE") ].

Definition same_version_change : Change :=
  mkChange [ ("name", VStr "Mirror"); ("version", VStr "1.0") ]
           [ ("name", VStr "Mirror 2"); ("version", VStr "1.0") ].

Definition new_version_change : Change :=
  mkChange [ ("name", VStr "Mirror"); ("version", VStr "1.0") ]
           [ ("name", VStr "Mirror"); ("version", VStr "1.1") ].

Definition two_devices : World :=
  mkWorld [ mkTokenDoc "d1" (VStr "A") (Some 0);
            mkTokenDoc "d2" (VStr "B") (Some 0) ] [] [].

(** Two registrations of one and the same token value. *)
Definition twin_devices : World :=
  mkWorld [ mkTokenDoc "d1" (VStr "A") (Some 0);
            mkTokenDoc "d2" (VStr "A") (Some 0) ] [] [].

Definition one_lost : BatchResponse :=
  mkBatchResponse [ delivered; failed_with InvalidHandle ] 1 1.

Definition one_busy : BatchResponse :=
  mkBatchResponse [ delivered; failed_with TransientFailure ] 1 1.

Definition both_delivered : BatchResponse :=
  mkBatchResponse [ delivered; delivered ] 2 0.





(** A log of one run in which every send failed, written a second before
    the clock reading 1000. *)
Definition all_failed_log : World :=
  mkWorld []
          [ mkLogEntry (VStr "mirror") (VStr "Mirror") "UPDATE" (VStr "1.1")
              (Some 0) (Some 5) 0 ]
          [].

Definition stats_request : Request := mkRequest "GET" [].

(** One registration from long ago, one of today (clock reading
    [ninety_days_ms + 10]). *)
Definition old_and_new : World :=
  mkWorld [ mkTokenDoc "d1" (VStr "A") (Some 0);
            mkTokenDoc "d2" (VStr "B") (Some ninety_days_ms) ] [] [].

Definition three_devices : World :=
  mkWorld [ mkTokenDoc "d1" (VStr "A") (Some 0);
            mkTokenDoc "d2" (VStr "B") (Some 0);
            mkTokenDoc "d3" (VStr "C") (Some 0) ] [] [].

Definition all_three_delivered : BatchResponse :=
  mkBatchResponse [ delivered; delivered; delivered ] 3 0.

(** ** The test endpoint *)

Section TestEndpoint.

Variable env : Env.

Definition testMessage (token appName : JValue) : Json :=
  JO [ ("token", JV token);
       ("notification",
        JO [ ("title", jstr "Test Notification");
             ("body", jstr ("Testing notifications for "
                            ++ toStr (jor appName (VStr "Test App"))));
             ("icon", jstr icon_url) ]);
       ("data",
        JO [ ("type", jstr "TEST");
             ("timestamp", JIso (now env)) ]) ].

Definition test_sent : Response :=
  mkResponse 200 (JO [ ("success", jbool true);
                       ("message", jstr "Test notification sent") ]).

(** The handler of [exports.testNotification], lines 372-408: the function
    handed to [cors]. *)
Definition testNotification (req : Request) : M Response :=
  try_catch
    (if negb (String.eqb (method req) "POST") then
       ret (mkResponse 405 (JO [ ("error", jstr "Method not allowed") ]))
     else
       let token := field "token" (body req) in
       let appName := field "appName" (body req) in
       if negb (truthy token) then
         ret (mkResponse 400 (JO [ ("error", jstr "Device token required") ]))
       else
         send env (testMessage token appName) ;;
         ret test_sent)
    (fun error =>
       consoleError "Error sending test notification:" error ;;
       ret (mkResponse 500 (error_body error))).

End TestEndpoint.

(** ** The exported HTTP functions *)

(** [String.prototype.toUpperCase] on ASCII text; an HTTP method is an
    ASCII token. *)
Definition upper_ascii (c : Ascii.ascii) : Ascii.ascii :=
  let n := Ascii.nat_of_ascii c in
  if ((97 <=? n) && (n <=? 122))%nat then Ascii.ascii_of_nat (n - 32) else c.

Fixpoint toUpperCase (s : string) : string :=
  match s with
  | EmptyString => EmptyString
  | String c rest => String (upper_ascii c) (toUpperCase rest)
  end.

(** What [cors] answers a preflight with: [optionsSuccessStatus], 204, and
    [res.end()] without a body. *)
Definition preflight_answer : Response := mkResponse 204 (JV VUndefined).

(** [cors(req, res, next)] for [require('cors')({ origin: true })], line 13.
    The middleware answers a request whose method reads [OPTIONS] itself and
    does not call [next]; every other request goes to [next].  The headers
    it sets on the response are not represented. *)
Definition cors (req : Request) (next : M Response) : M Response :=
  if String.eqb (toUpperCase (method req)) "OPTIONS" then ret preflight_answer
  else next.

Section Exports.

Variable env : Env.

(** [exports.sendNotification], lines 23-123. *)
Definition exports_sendNotification (req : Request) : M Response :=
  cors req (sendNotification env req).

(** [exports.sendDownloadProgress], lines 129-198. *)
Definition exports_sendDownloadProgress (req : Request) : M Response :=
  cors req (sendDownloadProgress env req).

(** [exports.getNotificationStats], lines 322-365. *)
Definition exports_getNotificationStats (req : Request) : M Response :=
  cors req (getNotificationStats env req).

(** [exports.testNotification], lines 371-409. *)
Definition exports_testNotification (req : Request) : M Response :=
  cors req (testNotification env req).

End Exports.

(** ** The service worker, [firebase-messaging-sw.js] *)

(** A push payload: [payload.notification] and [payload.data], either of
    which may be absent. *)
Record Payload : Type := mkPayload {
  payload_notification : option JObject;
  payload_data : option JObject
}.

(** [obj?.name] *)
Definition optField (name : string) (obj : option JObject) : JValue :=
  match obj with
  | Some o => field name o
  | None => VUndefined
  end.

Record NotificationAction : Type := mkNotificationAction {
  action_name : string;
  action_title : string;
  action_icon : string
}.

(** [notificationOptions.data]; [data_timestamp] is the instant whose ISO
    text the source stores. *)
Record NotificationData : Type := mkNotificationData {
  data_appId : JValue;
  data_downloadUrl : JValue;
  data_appName : JValue;
  data_appIcon : JValue;
  data_timestamp : Z
}.

Record NotificationOptions : Type := mkNotificationOptions {
  opt_body : JValue;
  opt_icon : JValue;
  opt_badge : string;
  opt_tag : string;
  opt_requireInteraction : bool;
  opt_actions : list NotificationAction;
  opt_data : NotificationData
}.

(** A window of the application, as [clients.matchAll] lists it. *)
Record WindowClient : Type := mkWindowClient {
  client_id : nat;
  client_url : string
}.

(** What the worker does to the browser, in program order. *)
Inductive SWEvent : Type :=
| SWConsoleLog (label : string)
| SWShowNotification (title : JValue) (options : NotificationOptions)
| SWCloseNotification
| SWMatchAll
| SWFocus (id : nat)
| SWPostMessage (id : nat) (type : string) (data : NotificationData)
| SWOpenWindow (url : string).

(** The browser around one click: what [clients.matchAll] resolves to,
    whether [clients.openWindow] exists, and what it resolves to. *)
Record Browser : Type := mkBrowser {
  matchAll_result : Result (list WindowClient);
  openWindow_exists : bool;
  openWindow_result : string -> Result (option WindowClient)
}.

(** The [notificationclick] event: [event.action] (empty when the body of
    the notification was clicked) and [event.notification.data]. *)
Record ClickEvent : Type := mkClickEvent {
  click_action : string;
  click_data : NotificationData
}.

(** The handler of [messaging.onBackgroundMessage], lines 23-56, at clock
    reading [clock]. *)
Definition onBackgroundMessage (clock : Z) (payload : Payload) : list SWEvent :=
  let notificationTitle :=
    jor (optField "title" (payload_notification payload))
        (VStr "App Update Available") in
  let notificationOptions :=
    mkNotificationOptions
      (jor (optField "body" (payload_notification payload))
           (VStr "A new app version is ready to download"))
      (jor (optField "icon" (payload_notification payload)) (VStr icon_url))
      icon_url
      "app-download-notification"
      false
      [ mkNotificationAction "open" "Download" icon_url;
        mkNotificationAction "close" "Dismiss" icon_url ]
      (mkNotificationData
         (jor (optField "appId" (payload_data payload)) (VStr ""))
         (jor (optField "downloadUrl" (payload_data payload)) (VStr ""))
         (jor (optField "appName" (payload_data payload)) (VStr ""))
         (jor (optField "appIcon" (payload_data payload)) (VStr ""))
         clock) in
  [ SWConsoleLog "Background message received:";
    SWShowNotification notificationTitle notificationOptions ].

(** [s.includes(sub)] *)
Fixpoint includes (sub s : string) : bool :=
  if String.prefix sub s then true
  else match s with
       | EmptyString => false
       | String _ rest => includes sub rest
       end.

(** The test of line 70. *)
Definition is_app_window (client : WindowClient) : bool :=
  String.eqb (client_url client) "/" || includes "index.html" (client_url client).

(** The loop of lines 68-80: the first window that passes the test. *)
Fixpoint firstAppWindow (clientList : list WindowClient) : option WindowClient :=
  match clientList with
  | [] => None
  | client :: rest =>
      if is_app_window client then Some client else firstAppWindow rest
  end.

(** The handler of [notificationclick], lines 59-96: the calls made, and
    what the promise handed to [event.waitUntil] settles to ([None] when
    [waitUntil] is not called; [Ok None] is a promise of [undefined] or
    [null]). *)
Definition notificationclick (browser : Browser) (event : ClickEvent)
  : list SWEvent * option (Result (option WindowClient)) :=
  let opening := [ SWConsoleLog "Notification clicked:"; SWCloseNotification ] in
  if String.eqb (click_action event) "open"
     || String.eqb (click_action event) "" then
    match matchAll_result browser with
    | Throw e => (opening ++ [ SWMatchAll ], Some (Throw e))
    | Ok clientList =>
        match firstAppWindow clientList with
        | Some client =>
            (opening ++ [ SWMatchAll;
                          SWFocus (client_id client);
                          SWPostMessage (client_id client)
                            "NOTIFICATION_CLICKED" (click_data event) ],
             Some (Ok (Some client)))
        | None =>
            if openWindow_exists browser then
              match openWindow_result browser "/" with
              | Throw e =>
                  (opening ++ [ SWMatchAll; SWOpenWindow "/" ], Some (Throw e))
              | Ok (Some client) =>
                  (opening ++ [ SWMatchAll; SWOpenWindow "/";
                                SWPostMessage (client_id client)
                                  "NOTIFICATION_CLICKED" (click_data event) ],
                   Some (Ok (Some client)))
              | Ok None =>
                  (opening ++ [ SWMatchAll; SWOpenWindow "/" ], Some (Ok None))
              end
            else (opening ++ [ SWMatchAll ], Some (Ok None))
        end
    end
  else (opening, None).

(** The handler of [notificationclose], lines 99-101. *)
Definition notificationclose : list SWEvent :=
  [ SWConsoleLog "Notification closed:" ].

(** ** Reading a run *)

Definition is_store_call (e : Event) : bool :=
  match e with
  | EGetTokens | EQueryToken _ | EQueryAged _ | EDelete _
  | EBatchCommit _ | EQueryLogs _ | ELogAdd _ => true
  | _ => false
  end.

(** [m] moves every world to one related to it by [R]. *)
Definition keeps {A} (R : World -> World -> Prop) (m : M A) : Prop :=
  forall w, R w (snd (m w)).

(** Every value [m] returns satisfies [P]. *)
Definition returns {A} (P : A -> Prop) (m : M A) : Prop :=
  forall w a w', m w = (Ok a, w') -> P a.

(** Both collections as they were. *)
Definition same_store (w w' : World) : Prop :=
  notification_tokens w' = notification_tokens w
  /\ notification_logs w' = notification_logs w.

(** No token added, the log as it was. *)
Definition store_shrinks (w w' : World) : Prop :=
  incl (notification_tokens w') (notification_tokens w)
  /\ notification_logs w' = notification_logs w.

(** The same store calls in the trace: none was added. *)
Definition no_store_call (w w' : World) : Prop :=
  filter is_store_call (trace w') = filter is_store_call (trace w).

(** The same gateway calls in the trace: none was added. *)
Definition no_gateway_call (w w' : World) : Prop :=
  filter is_gateway_call (trace w') = filter is_gateway_call (trace w).

(** The tokens as they were, the log grown by at most one entry. *)
Definition logs_once (w w' : World) : Prop :=
  notification_tokens w' = notification_tokens w
  /\ (notification_logs w' = notification_logs w
      \/ exists entry, notification_logs w' = notification_logs w ++ [entry]).

(** The entry [notifyOnAppUpdate] writes. *)
Definition update_entry (env : Env) (change : Change) (context : EventContext)
  (response : BatchResponse) : LogEntry :=
  mkLogEntry (VStr (params_appId context)) (field "name" (after change))
    "UPDATE" (field "version" (after change))
    (Some (successCount response)) (Some (failureCount response)) (now env).

(** The number of messages a run of the worker posts. *)
Definition posts (tr : list SWEvent) : nat :=
  length (filter (fun e => match e with
                           | SWPostMessage _ _ _ => true
                           | _ => false
                           end) tr).

(** The two messages of [sendDownloadProgress], read off a request. *)
Definition progressToDevice (env : Env) (req : Request) : Json :=
  JO [ ("token", JV (field "deviceToken" (body req)));
       ("data", progressData env (field "appId" (body req))
                  (field "appName" (body req))
                  (toStr (field "progress" (body req))));
       ("android", JO [ ("priority", jstr "high") ]) ].

Definition progressToAll (env : Env) (req : Request) : Json :=
  JO [ ("data", progressData env (field "appId" (body req))
                  (field "appName" (body req))
                  (toStr (field "progress" (body req)))) ].

Definition progress_sent : Response :=
  mkResponse 200 (JO [ ("success", jbool true);
                       ("message", jstr "Progress notification sent") ]).

Definition progress_broadcast_sent (response : BatchResponse) : Response :=
  mkResponse 200 (JO [ ("success", jbool true);
                       ("successCount", jnum (successCount response));
                       ("failureCount", jnum (failureCount response)) ]).

Definition method_not_allowed : Response :=
  mkResponse 405 (JO [ ("error", jstr "Method not allowed") ]).

Definition token_required : Response :=
  mkResponse 400 (JO [ ("error", jstr "Device token required") ]).

(** The cutoff of the cleanup job and the documents it selects. *)
Definition cleanup_cutoff (env : Env) : Z := now env - ninety_days_ms.

(** ** More sample inputs *)

Definition test_request : Request :=
  mkRequest "POST" [ ("token", VStr "A") ].

Definition progress_request : Request :=
  mkRequest "POST" [ ("appId", VStr "mirror"); ("appName", VStr "Mirror");
                     ("progress", VNum 40) ].

Definition progress_to_device : Request :=
  mkRequest "POST" [ ("appId", VStr "mirror"); ("progress", VNum 40);
                     ("deviceToken", VStr "A") ].

Definition null_progress : Request :=
  mkRequest "POST" [ ("appId", VStr "mirror"); ("progress", VNull) ].

(** Every call to the store is rejected. *)
Definition store_down_env (clock : Z) (answer : Result BatchResponse) : Env :=
  mkEnv clock
        (fun _ => Some "UNAVAILABLE") (fun _ _ => Some "UNAVAILABLE")
        (fun _ _ => true) (fun _ _ => true)
        (fun _ => Some "UNAVAILABLE") (fun _ _ => Some "UNAVAILABLE")
        (fun _ => Some "UNAVAILABLE") (fun _ => Some "UNAVAILABLE")
        (fun _ _ _ => answer) (fun _ _ => None).

(** The store reads work, the batch commit is rejected. *)
Definition commit_down_env (clock : Z) : Env :=
  mkEnv clock
        (fun _ => None) (fun _ _ => None) (fun _ _ => false) (fun _ _ => true)
        (fun _ => None) (fun _ _ => Some "ABORTED")
        (fun _ => None) (fun _ => None)
        (fun _ _ _ => Throw "down") (fun _ _ => None).

Definition sample_data : NotificationData :=
  mkNotificationData (VStr "mirror") (VStr "") (VStr "Mirror") (VStr "") 0.

Definition three_windows : list WindowClient :=
  [ mkWindowClient 1 "https://example.org/about";
    mkWindowClient 2 "https://example.org/index.html";
    mkWindowClient 3 "/" ].

(** A gateway answer whose counter says nothing failed although one send
    did. *)
Definition miscounted : BatchResponse :=
  mkBatchResponse [ failed_with InvalidHandle; delivered ] 2 0.

Definition open_click : ClickEvent := mkClickEvent "open" sample_data.

Definition dismiss_click : ClickEvent := mkClickEvent "close" sample_data.

(** A browser with the windows [clientList] open, whose [openWindow] hands
    over window 9. *)
Definition browser_with (clientList : list WindowClient) : Browser :=
  mkBrowser (Ok clientList) true
            (fun url => Ok (Some (mkWindowClient 9 url))).

(** * Properties *)

(** ** Values *)

Lemma strict_eq_spec (a b : JValue) : strict_eq a b = true <-> a = b.
Proof.
  destruct a, b; simpl; split; intros H;
    try discriminate; try reflexivity; try (inversion H; subst).
  - apply Bool.eqb_prop in H. now subst.
  - apply Bool.eqb_reflx.
  - apply Z.eqb_eq in H. now subst.
  - apply Z.eqb_refl.
  - apply String.eqb_eq in H. now subst.
  - apply String.eqb_refl.
Qed.

Lemma strict_eq_refl (a : JValue) : strict_eq a a = true.
Proof. now apply strict_eq_spec. Qed.

(** ** Traces *)

Lemma multicasts_app (a b : list Event) :
  multicasts (a ++ b) = multicasts a ++ multicasts b.
Proof. apply flat_map_app. Qed.


Lemma collectTokens_spec (docs : list TokenDoc) :
  collectTokens (snapshot_of docs) = filter truthy (map token docs).
Proof.
  induction docs as [|d docs IH]; simpl; [reflexivity|].
  rewrite IH. reflexivity.
Qed.

Lemma In_listAll (w : World) (t : JValue) :
  In t (listAll w) <->
  exists d, In d (notification_tokens w) /\ token d = t /\ truthy t = true.
Proof.
  unfold listAll. rewrite collectTokens_spec, filter_In, in_map_iff.
  split.
  - intros [[d [Hd Hin]] Ht]. exists d. auto.
  - intros [d [Hin [Hd Ht]]]. split; [exists d; auto | exact Ht].
Qed.

(** ** Validation comes first (C7) *)

Section Validation.

Variable env : Env.

Lemma sendNotification_invalid (req : Request) (w : World) :
  method req = "POST" ->
  truthy (field "appId" (body req)) = false \/
  truthy (field "type" (body req)) = false ->
  sendNotification env req w = (Ok missing_notification_fields, w).
Proof.
  intros Hm Hf. unfold sendNotification, try_catch.
  rewrite Hm. simpl.
  destruct Hf as [Hf | Hf]; rewrite Hf; simpl;
    [|rewrite orb_true_r]; reflexivity.
Qed.

Lemma sendDownloadProgress_invalid (req : Request) (w : World) :
  truthy (field "appId" (body req)) = false \/
  field "progress" (body req) = VUndefined ->
  sendDownloadProgress env req w = (Ok missing_progress_fields, w).
Proof.
  intros Hf. unfold sendDownloadProgress, try_catch.
  destruct Hf as [Hf | Hf]; rewrite Hf; simpl;
    [|rewrite orb_true_r]; reflexivity.
Qed.

(** Every answer of [sendDownloadProgress] other than the validation's own
    carries a status other than 400. *)
Lemma sendDownloadProgress_accepts (req : Request) (w : World) :
  truthy (field "appId" (body req)) = true ->
  field "progress" (body req) <> VUndefined ->
  exists r w', sendDownloadProgress env req w = (Ok r, w') /\ status r <> 400.
Proof.
  intros Ha Hp. unfold sendDownloadProgress, try_catch.
  rewrite Ha. simpl.
  assert (Hs : strict_eq (field "progress" (body req)) VUndefined = false).
  { destruct (strict_eq _ _) eqn:E; [|reflexivity].
    apply strict_eq_spec in E. contradiction. }
  rewrite Hs.
  match goal with
  | |- exists r w', match ?m with _ => _ end = _ /\ _ =>
      destruct m as [[r|e] w1] eqn:E
  end.
  - exists r, w1. split; [reflexivity|].
    destruct (truthy (field "deviceToken" (body req))).
    + unfold bind in E.
      destruct (toStringOf _ w) as [[p|e] w2]; [|discriminate].
      destruct (send env _ w2) as [[u|e] w3]; [|discriminate].
      inversion E; subst. simpl. lia.
    + unfold bind in E.
      destruct (getTokens env w) as [[snap|e] w2]; [|discriminate].
      destruct (length (collectTokens snap) =? 0)%nat.
      * inversion E; subst. simpl. lia.
      * destruct (toStringOf _ w2) as [[p|e] w3]; [|discriminate].
        destruct (sendMulticast env _ _ w3) as [[resp|e] w4]; [|discriminate].
        inversion E; subst. simpl. lia.
  - eexists; eexists. split; [reflexivity|]. simpl. lia.
Qed.

End Validation.

(** C7: a request that lacks a required field is answered 400 with the
    world, trace included, left as it was, so no store or gateway call has
    been made: [appId] or [type] for [sendNotification] (on POST), [appId]
    or [progress] for [sendDownloadProgress].  A [progress] of 0 is present:
    with an [appId] the request gets past the validation and its answer is
    not a 400. *)
Theorem missing_fields_rejected (env : Env) (req : Request) (w : World) :
  (method req = "POST" ->
   field "appId" (body req) = VUndefined \/
   field "type" (body req) = VUndefined ->
   sendNotification env req w = (Ok missing_notification_fields, w))
  /\
  (field "appId" (body req) = VUndefined \/
   field "progress" (body req) = VUndefined ->
   sendDownloadProgress env req w = (Ok missing_progress_fields, w))
  /\
  (truthy (field "appId" (body req)) = true ->
   field "progress" (body req) = VNum 0 ->
   exists r w',
     sendDownloadProgress env req w = (Ok r, w') /\ status r <> 400).
Proof.
  split; [|split].
  - intros Hm [H | H]; apply sendNotification_invalid; auto;
      [left | right]; rewrite H; reflexivity.
  - intros [H | H]; apply sendDownloadProgress_invalid;
      [left; rewrite H; reflexivity | right; exact H].
  - intros Ha Hp. apply sendDownloadProgress_accepts; [exact Ha|].
    rewrite Hp. discriminate.
Qed.

Lemma missing_fields_rejected_witness :
  sendNotification (steady_env 0 (Throw "down"))
    (mkRequest "POST" [ ("appId", VStr "mirror") ]) empty_world
  = (Ok missing_notification_fields, empty_world)
  /\
  sendDownloadProgress (steady_env 0 (Throw "down"))
    (mkRequest "POST" [ ("appId", VStr "mirror") ]) empty_world
  = (Ok missing_progress_fields, empty_world)
  /\
  exists r w',
    sendDownloadProgress (steady_env 0 (Throw "down"))
      (mkRequest "POST" [ ("appId", VStr "mirror"); ("progress", VNum 0) ])
      empty_world = (Ok r, w') /\ status r <> 400.
Proof.
  split; [|split].
  - apply (missing_fields_rejected (steady_env 0 (Throw "down"))
             (mkRequest "POST" [ ("appId", VStr "mirror") ]) empty_world);
      [reflexivity | right; reflexivity].
  - apply (missing_fields_rejected (steady_env 0 (Throw "down"))
             (mkRequest "POST" [ ("appId", VStr "mirror") ]) empty_world).
    right; reflexivity.
  - apply (missing_fields_rejected (steady_env 0 (Throw "down"))
             (mkRequest "POST" [ ("appId", VStr "mirror"); ("progress", VNum 0) ])
             empty_world); reflexivity.
Defined.

(** ** No targets (C5, C10) and the unchanged version (C6) *)

Section NoTargets.

Variable env : Env.

(** C5: a valid POST whose fetch collects no token is answered 404, and the
    only call made is the fetch itself: the trace grows by [EGetTokens]
    alone, so the gateway is never called. *)
Theorem no_targets_is_404 (req : Request) (w : World) :
  method req = "POST" ->
  truthy (field "appId" (body req)) = true ->
  truthy (field "type" (body req)) = true ->
  tokensGet_fault env (trace w) = None ->
  listAll w = [] ->
  sendNotification env req w = (Ok no_tokens_found, emit EGetTokens w)
  /\ filter is_gateway_call (trace (snd (sendNotification env req w)))
     = filter is_gateway_call (trace w).
Proof.
  intros Hm Ha Ht Hg He.
  assert (E : sendNotification env req w = (Ok no_tokens_found, emit EGetTokens w)).
  { unfold sendNotification, try_catch. rewrite Hm, Ha, Ht. simpl.
    unfold bind, getTokens. rewrite Hg.
    unfold listAll in He. rewrite He. reflexivity. }
  split; [exact E|].
  rewrite E. simpl. rewrite filter_app. simpl. apply app_nil_r.
Qed.

(** C6: when the [version] of the record is the same before and after, the
    trigger returns at once: the result is the bare return and the world,
    trace included, is untouched, whatever else changed in the record. *)
Theorem unchanged_version_is_noop (change : Change) (context : EventContext)
  (w : World) :
  field "version" (before change) = field "version" (after change) ->
  notifyOnAppUpdate env change context w = (Ok None, w).
Proof.
  intros Hv. unfold notifyOnAppUpdate, try_catch.
  rewrite Hv, strict_eq_refl. reflexivity.
Qed.

(** C10: a changed version with no token to send to ends in a normal
    return: nothing is thrown, the gateway is not called, no log entry is
    added; the trace grows by two console lines and the fetch. *)
Theorem update_without_targets (change : Change) (context : EventContext)
  (w : World) :
  field "version" (before change) <> field "version" (after change) ->
  (forall tr, tokensGet_fault env tr = None) ->
  listAll w = [] ->
  notifyOnAppUpdate env change context w
  = (Ok None, nobody_to_notify change context w)
  /\ filter is_gateway_call (trace (nobody_to_notify change context w))
     = filter is_gateway_call (trace w)
  /\ notification_logs (nobody_to_notify change context w)
     = notification_logs w.
Proof.
  intros Hv Hg He. split; [|split].
  - unfold notifyOnAppUpdate, try_catch.
    destruct (strict_eq _ _) eqn:E.
    { apply strict_eq_spec in E. contradiction. }
    unfold bind, consoleLog, getTokens. rewrite Hg. simpl.
    unfold listAll in He. rewrite He. reflexivity.
  - unfold nobody_to_notify. simpl.
    rewrite !filter_app. simpl. now rewrite !app_nil_r.
  - reflexivity.
Qed.

End NoTargets.

Lemma no_targets_is_404_witness :
  sendNotification (steady_env 0 (Throw "down")) update_request empty_world
  = (Ok no_tokens_found, emit EGetTokens empty_world)
  /\ filter is_gateway_call
       (trace (snd (sendNotification (steady_env 0 (Throw "down"))
                      update_request empty_world)))
     = filter is_gateway_call (trace empty_world).
Proof.
  apply (no_targets_is_404 (steady_env 0 (Throw "down")) update_request
           empty_world); reflexivity.
Defined.

Lemma unchanged_version_is_noop_witness :
  notifyOnAppUpdate (steady_env 0 (Throw "down")) same_version_change
    (mkEventContext "mirror") empty_world = (Ok None, empty_world).
Proof.
  apply (unchanged_version_is_noop (steady_env 0 (Throw "down"))
           same_version_change (mkEventContext "mirror") empty_world).
  reflexivity.
Defined.

Lemma update_without_targets_witness :
  notifyOnAppUpdate (steady_env 0 (Throw "down")) new_version_change
    (mkEventContext "mirror") (mkWorld [ mkTokenDoc "d1" (VStr "") None ] [] [])
  = (Ok None,
     nobody_to_notify new_version_change (mkEventContext "mirror")
       (mkWorld [ mkTokenDoc "d1" (VStr "") None ] [] [])).
Proof.
  apply (update_without_targets (steady_env 0 (Throw "down")) new_version_change
           (mkEventContext "mirror")
           (mkWorld [ mkTokenDoc "d1" (VStr "") None ] [] [])).
  - discriminate.
  - reflexivity.
  - reflexivity.
Defined.

(** ** Loops over the store *)

Lemma forEachM_preserves {A} (f : A -> M unit) (I : World -> Prop) :
  (forall x w, I w -> I (snd (f x w))) ->
  forall l w, I w -> I (snd (forEachM f l w)).
Proof.
  intros Hf l. induction l as [|x l IH]; intros w Hw; simpl; [exact Hw|].
  unfold bind. specialize (Hf x w Hw).
  destruct (f x w) as [[u|e] w1]; simpl in *; auto.
Qed.

Lemma forEachM_never_throws {A} (f : A -> M unit) :
  (forall x w, fst (f x w) = Ok tt) ->
  forall l w, fst (forEachM f l w) = Ok tt.
Proof.
  intros Hf l. induction l as [|x l IH]; intros w; simpl; [reflexivity|].
  unfold bind. specialize (Hf x w).
  destruct (f x w) as [[u|e] w1]; simpl in *; [apply IH | discriminate].
Qed.

Lemma remove_docs_cons (id : string) (ids : list string) (docs : list TokenDoc) :
  remove_docs ids (remove_doc id docs) = remove_docs (id :: ids) docs.
Proof.
  unfold remove_docs, remove_doc.
  induction docs as [|d docs IH]; simpl; [reflexivity|].
  destruct (String.eqb (docId d) id); simpl; rewrite IH; reflexivity.
Qed.

Lemma remove_docs_nil (docs : list TokenDoc) : remove_docs [] docs = docs.
Proof.
  unfold remove_docs. induction docs as [|d docs IH]; simpl in *; congruence.
Qed.

Lemma filter_filter {A} (p q : A -> bool) (l : list A) :
  filter p (filter q l) = filter (fun x => q x && p x) l.
Proof.
  induction l as [|x l IH]; simpl; [reflexivity|].
  destruct (q x); simpl; [destruct (p x)|]; rewrite IH; reflexivity.
Qed.

Lemma docId_injective (docs : list TokenDoc) (a b : TokenDoc) :
  NoDup (map docId docs) -> In a docs -> In b docs ->
  docId a = docId b -> a = b.
Proof.
  induction docs as [|d docs IH]; simpl; intros Hnd Ha Hb Hab; [contradiction|].
  inversion Hnd as [|? ? Hnotin Hnd']; subst.
  destruct Ha as [Ha | Ha], Hb as [Hb | Hb]; subst.
  - reflexivity.
  - exfalso. apply Hnotin. rewrite Hab. now apply in_map.
  - exfalso. apply Hnotin. rewrite <- Hab. now apply in_map.
  - now apply IH.
Qed.

Lemma NoDup_docId_filter (p : TokenDoc -> bool) (docs : list TokenDoc) :
  NoDup (map docId docs) -> NoDup (map docId (filter p docs)).
Proof.
  induction docs as [|d docs IH]; simpl; intros Hnd; [constructor|].
  inversion Hnd as [|? ? Hnotin Hnd']; subst.
  destruct (p d); simpl; [|now apply IH].
  constructor; [|now apply IH].
  intros Hin. apply Hnotin.
  apply in_map_iff in Hin. destruct Hin as [x [Hx Hin]].
  apply filter_In in Hin. rewrite <- Hx. apply in_map. tauto.
Qed.

(** ** Deletes in flight *)

Lemma remove_docs_app (a b : list string) (docs : list TokenDoc) :
  remove_docs b (remove_docs a docs) = remove_docs (a ++ b) docs.
Proof.
  unfold remove_docs. rewrite filter_filter. apply filter_ext.
  intros d. now rewrite existsb_app, negb_orb.
Qed.

Lemma remove_docs_incl (ids : list string) (docs : list TokenDoc) :
  incl (remove_docs ids docs) docs.
Proof. intros d Hd. apply filter_In in Hd. tauto. Qed.

Lemma In_remove_docs (ids : list string) (docs : list TokenDoc) (d : TokenDoc) :
  In d (remove_docs ids docs) <-> In d docs /\ ~ In (docId d) ids.
Proof.
  unfold remove_docs. rewrite filter_In, negb_true_iff. split.
  - intros [Hd Hex]. split; [exact Hd|]. intros Hin.
    assert (existsb (String.eqb (docId d)) ids = true).
    { apply existsb_exists. exists (docId d). split; [exact Hin|].
      apply String.eqb_refl. }
    congruence.
  - intros [Hd Hn]. split; [exact Hd|].
    destruct (existsb _ ids) eqn:E; [|reflexivity].
    apply existsb_exists in E. destruct E as [id [Hid Heq]].
    apply String.eqb_eq in Heq. subst id. contradiction.
Qed.

Lemma inflight_from_app (a b : list Event) (fired : list string) :
  inflight_from (a ++ b) fired = inflight_from b (inflight_from a fired).
Proof.
  revert fired. induction a as [|e a IH]; intros fired; simpl; [reflexivity|].
  destruct e; apply IH.
Qed.

Lemma inflight_from_deletes (ids fired : list string) :
  inflight_from (map EDelete ids) fired = fired ++ ids.
Proof.
  revert fired. induction ids as [|id ids IH]; intros fired; simpl.
  - now rewrite app_nil_r.
  - rewrite IH, <- app_assoc. reflexivity.
Qed.

Lemma inflight_lookup_deletes (tr : list Event) (v : JValue) (ids : list string) :
  inflight (tr ++ EQueryToken v :: map EDelete ids) = inflight tr ++ ids.
Proof.
  unfold inflight. rewrite inflight_from_app. simpl.
  apply inflight_from_deletes.
Qed.

Lemma inflight_after_send (tr : list Event) (tokens : list JValue)
  (message : Json) (text : string) :
  inflight ((tr ++ [ESendMulticast tokens message]) ++ [EConsoleLog text]) = [].
Proof. unfold inflight. rewrite !inflight_from_app. reflexivity. Qed.

Lemma arrived_ids_inflight (env : Env) (tr : list Event) :
  incl (arrived_ids env tr) (inflight tr).
Proof. intros id H. apply filter_In in H. tauto. Qed.

(** ** The pruning loop of [sendNotification] *)

Section Reconciliation.

Variable env : Env.

Lemma deleteRef_never_throws (d : DocSnap) (w : World) :
  fst (deleteRef d w) = Ok tt.
Proof. reflexivity. Qed.

Lemma deleteRef_trace (d : DocSnap) (w : World) :
  trace (snd (deleteRef d w)) = trace w ++ [EDelete (docId (doc_data d))].
Proof. reflexivity. Qed.

(** A [forEach] of deletes fires them all and leaves the store alone. *)
Lemma deleteRefs_run (docs : list TokenDoc) (w : World) :
  forEachM deleteRef (snapshot_of docs) w
  = (Ok tt,
     mkWorld (notification_tokens w) (notification_logs w)
             (trace w ++ map EDelete (map docId docs))).
Proof.
  revert w. induction docs as [|d docs IH]; intros w; simpl.
  - unfold ret. rewrite app_nil_r. now destruct w.
  - unfold bind, deleteRef at 1. rewrite IH. simpl.
    rewrite <- app_assoc. reflexivity.
Qed.

(** One pass of the loop with a lookup that works: the deletes that have
    arrived are applied, the token is looked up in what is left, and a
    delete is fired at every match. *)
Lemma pruneToken_run (t : JValue) (w : World) :
  tokenQuery_fault env (trace w) t = None ->
  pruneToken env t w
  = (Ok tt,
     mkWorld (remove_docs (arrived_ids env (trace w)) (notification_tokens w))
             (notification_logs w)
             (trace w ++ EQueryToken t
                :: map EDelete
                     (map docId
                        (filter (fun d => strict_eq (token d) t)
                           (remove_docs (arrived_ids env (trace w))
                              (notification_tokens w)))))).
Proof.
  intros Hl. unfold pruneToken, bind, queryByToken. rewrite Hl.
  rewrite deleteRefs_run. simpl. rewrite <- app_assoc. reflexivity.
Qed.

Lemma pruneToken_keeps_pruning (docs : list TokenDoc) (visited : list JValue)
  (t : JValue) (w : World) :
  tokenQuery_fault env (trace w) t = None ->
  pruning docs visited w ->
  pruning docs (visited ++ [t]) (snd (pruneToken env t w)).
Proof.
  intros Hl [[gone [Hgone Hstore]] [Hfired Hcovered]].
  rewrite (pruneToken_run t w Hl). cbn [snd].
  unfold pruning. cbn [notification_tokens trace].
  rewrite inflight_lookup_deletes.
  set (arrived := arrived_ids env (trace w)) in *.
  set (kept := remove_docs arrived (notification_tokens w)) in *.
  split; [|split].
  - exists (gone ++ arrived). split.
    + intros id Hid. apply in_or_app. left.
      apply in_app_or in Hid. destruct Hid as [Hid | Hid].
      * now apply Hgone.
      * now apply (arrived_ids_inflight env (trace w)).
    + unfold kept. rewrite Hstore. apply remove_docs_app.
  - intros id Hid. apply in_app_or in Hid. destruct Hid as [Hid | Hid].
    + destruct (Hfired id Hid) as [d [Hd [Hdid Htok]]].
      exists d. repeat split; auto. apply in_or_app. now left.
    + apply in_map_iff in Hid. destruct Hid as [d [Hdid Hd]].
      apply filter_In in Hd. destruct Hd as [Hd Hm].
      apply strict_eq_spec in Hm.
      exists d. split; [|split; [exact Hdid|]].
      * apply (remove_docs_incl arrived) in Hd. rewrite Hstore in Hd.
        now apply (remove_docs_incl gone) in Hd.
      * apply in_or_app. right. left. symmetry. exact Hm.
  - intros d Hd Htok. apply in_or_app.
    apply in_app_or in Htok. destruct Htok as [Htok | [Htok | []]].
    + left. apply Hcovered; [|exact Htok].
      now apply (remove_docs_incl arrived) in Hd.
    + right. apply in_map. apply filter_In. split; [exact Hd|].
      apply strict_eq_spec. now symmetry.
Qed.

Lemma pruneToken_logs (t : JValue) (w : World) :
  notification_logs (snd (pruneToken env t w)) = notification_logs w.
Proof.
  unfold pruneToken, bind, queryByToken.
  destruct (tokenQuery_fault env (trace w) t); [reflexivity|].
  rewrite deleteRefs_run. reflexivity.
Qed.

(** With lookups that work the loop runs to its end and keeps [pruning],
    whenever the store acknowledges the deletes. *)
Lemma prune_loop_keeps_pruning (docs : list TokenDoc) (failed : list JValue) :
  lookups_ok env ->
  forall (visited : list JValue) (w : World),
    pruning docs visited w ->
    fst (forEachM (pruneToken env) failed w) = Ok tt
    /\ pruning docs (visited ++ failed)
         (snd (forEachM (pruneToken env) failed w)).
Proof.
  intros Hl. induction failed as [|t failed IH]; intros visited w Hp; simpl.
  - rewrite app_nil_r. auto.
  - unfold bind.
    pose proof (pruneToken_keeps_pruning docs visited t w (Hl _ _) Hp) as Hstep.
    rewrite (pruneToken_run t w (Hl _ _)) in *. cbn [snd] in Hstep.
    destruct (IH (visited ++ [t]) _ Hstep) as [Hr Hp'].
    rewrite <- app_assoc in Hp'. auto.
Qed.

(** Whatever faults and whatever arrives, the loop calls no gateway. *)
Lemma pruneToken_multicasts (t : JValue) (w : World) :
  multicasts (trace (snd (pruneToken env t w))) = multicasts (trace w).
Proof.
  unfold pruneToken, bind, queryByToken.
  destruct (tokenQuery_fault env (trace w) t); simpl.
  - rewrite multicasts_app. simpl. apply app_nil_r.
  - rewrite deleteRefs_run. simpl. rewrite !multicasts_app. simpl.
    rewrite app_nil_r.
    assert (H : forall ids, multicasts (map EDelete ids) = []).
    { induction ids as [|i ids IHi]; simpl; auto. }
    rewrite H. apply app_nil_r.
Qed.

Lemma reconcile_multicasts (response : BatchResponse) (tokens : list JValue)
  (w : World) :
  multicasts (trace (snd (reconcile env response tokens w)))
  = multicasts (trace w).
Proof.
  unfold reconcile. destruct (failureCount response >? 0); [|reflexivity].
  apply (forEachM_preserves (pruneToken env)
           (fun w' => multicasts (trace w') = multicasts (trace w)));
    [|reflexivity].
  intros t w' Hw'. now rewrite pruneToken_multicasts.
Qed.




(** The path of a broadcast through the handler, up to the loop. *)
Lemma sendNotification_broadcast (req : Request) (w : World)
  (tokens : list JValue) (response : BatchResponse) :
  broadcast env req w tokens response ->
  sendNotification env req w
  = match reconcile env response tokens (sent_world env req w tokens response) with
    | (Ok _, w') => (Ok (mkResponse 200 (sent_body response tokens)), w')
    | (Throw e, w') =>
        (Ok (mkResponse 500 (error_body e)),
         emit (EConsoleError "Error sending notification:" e) w')
    end.
Proof.
  intros (Hm & Ha & Ht & Hg & Htok & Hne & Hs).
  unfold sendNotification, try_catch. rewrite Hm, Ha, Ht. simpl.
  unfold bind at 1. unfold getTokens. rewrite Hg.
  fold (listAll w). rewrite <- Htok.
  destruct tokens as [|t0 tokens']; [contradiction|].
  cbn [length Nat.eqb].
  unfold bind at 1. unfold sendMulticast.
  change (trace (emit EGetTokens w)) with (trace w ++ [EGetTokens]).
  unfold message_of in Hs. rewrite Hs.
  unfold bind at 1. unfold consoleLog.
  unfold bind, sent_world, message_of.
  destruct (reconcile env response (t0 :: tokens') _) as [[u|e] w']; reflexivity.
Qed.

End Reconciliation.

(** ** Which tokens the loop visits *)

Lemma nth_error_map_idx {A B} (f : A -> nat -> B) (k : nat) (l : list A) (i : nat) :
  nth_error (map_idx f k l) i
  = option_map (fun x => f x (k + i)%nat) (nth_error l i).
Proof.
  revert k i. induction l as [|x l IH]; intros k i; destruct i; simpl;
    try reflexivity.
  - now rewrite Nat.add_0_r.
  - rewrite IH. simpl. now rewrite Nat.add_succ_r.
Qed.

Lemma failedTokens_In (resps : list SendResponse) (tokens : list JValue)
  (idx : nat) (r : SendResponse) (t : JValue) :
  nth_error resps idx = Some r -> success r = false ->
  nth_error tokens idx = Some t -> truthy t = true ->
  In t (failedTokens resps tokens).
Proof.
  intros Hr Hs Ht Htr. unfold failedTokens. apply filter_In. split; [|exact Htr].
  apply nth_error_In with (n := idx).
  rewrite nth_error_map_idx, Hr. simpl. rewrite Hs. f_equal.
  now apply nth_error_nth.
Qed.

Lemma failedTokens_all_delivered (resps : list SendResponse)
  (tokens : list JValue) :
  (forall r, In r resps -> success r = true) ->
  failedTokens resps tokens = [].
Proof.
  unfold failedTokens. generalize 0%nat.
  induction resps as [|r resps IH]; intros k Hall; simpl; [reflexivity|].
  rewrite (Hall r) by (now left). simpl. apply IH.
  intros r' Hr'. apply Hall. now right.
Qed.

Lemma well_counted_positive (response : BatchResponse) (r : SendResponse) :
  well_counted response -> In r (responses response) -> success r = false ->
  (failureCount response >? 0) = true.
Proof.
  intros [_ Hf] Hin Hs. rewrite Hf.
  assert (Hin' : In r (filter (fun r => negb (success r)) (responses response))).
  { apply filter_In. split; [exact Hin | now rewrite Hs]. }
  destruct (filter _ _) as [|x l]; [contradiction|].
  simpl length. apply Z.gtb_lt. lia.
Qed.

Lemma well_counted_zero (response : BatchResponse) :
  well_counted response -> (failureCount response >? 0) = false ->
  forall r, In r (responses response) -> success r = true.
Proof.
  intros Hw Hz r Hin. destruct (success r) eqn:Hs; [reflexivity|].
  rewrite (well_counted_positive response r Hw Hin Hs) in Hz. discriminate.
Qed.



Lemma fulfilled_ids_all (env : Env) (tr : list Event) :
  deletes_ok env -> fulfilled_ids env tr = inflight tr.
Proof.
  intros Hd. unfold fulfilled_ids.
  induction (inflight tr) as [|id ids IH]; simpl; [reflexivity|].
  rewrite Hd. simpl. now rewrite IH.
Qed.


(** ... and with unique ids nothing else has gone. *)
Lemma pruning_acknowledged_exact (env : Env) (docs : list TokenDoc)
  (visited : list JValue) (w : World) :
  deletes_ok env -> NoDup (map docId docs) -> pruning docs visited w ->
  notification_tokens (acknowledged env w)
  = filter (fun d => negb (existsb (strict_eq (token d)) visited)) docs.
Proof.
  intros Hd Hnd [[gone [Hgone Hstore]] [Hfired Hcovered]].
  unfold acknowledged. cbn [notification_tokens set_tokens].
  rewrite fulfilled_ids_all by exact Hd.
  rewrite Hstore, remove_docs_app. unfold remove_docs.
  apply filter_ext_in. intros d Hdin. f_equal.
  destruct (existsb (strict_eq (token d)) visited) eqn:Ev.
  - apply existsb_exists in Ev. destruct Ev as [t [Ht Heq]].
    apply strict_eq_spec in Heq.
    apply existsb_exists. exists (docId d). split; [|apply String.eqb_refl].
    apply in_or_app.
    destruct (in_dec string_dec (docId d) gone) as [Hg | Hg]; [now left|].
    right. apply Hcovered.
    + rewrite Hstore. apply In_remove_docs. auto.
    + now rewrite Heq.
  - destruct (existsb _ (gone ++ inflight (trace w))) eqn:Ex; [|reflexivity].
    apply existsb_exists in Ex. destruct Ex as [id [Hid Heq]].
    apply String.eqb_eq in Heq. subst id.
    assert (Hfl : In (docId d) (inflight (trace w))).
    { apply in_app_or in Hid. destruct Hid as [Hid | Hid]; auto. }
    destruct (Hfired _ Hfl) as [d' [Hd' [Hsame Hv]]].
    assert (d' = d) by (apply (docId_injective docs); auto).
    subst d'.
    assert (existsb (strict_eq (token d)) visited = true).
    { apply existsb_exists. exists (token d). split; [exact Hv|].
      apply strict_eq_refl. }
    congruence.
Qed.

Section Broadcast.

Variable env : Env.

(** With lookups that work, a broadcast is answered 200 and, when the
    handler answers, the loop stands at [pruning] for the failed tokens. *)
Lemma broadcast_pruning (req : Request) (w : World) (tokens : list JValue)
  (response : BatchResponse) :
  broadcast env req w tokens response ->
  lookups_ok env -> well_counted response ->
  fst (sendNotification env req w)
  = Ok (mkResponse 200 (sent_body response tokens))
  /\ pruning (notification_tokens w)
       (failedTokens (responses response) tokens)
       (snd (sendNotification env req w)).
Proof.
  intros Hb Hl Hw.
  rewrite (sendNotification_broadcast env req w tokens response Hb).
  assert (Hstart : pruning (notification_tokens w) []
                     (sent_world env req w tokens response)).
  { unfold pruning, sent_world. cbn [trace emit notification_tokens].
    rewrite inflight_after_send. split; [|split].
    - exists []. split; [apply incl_refl|]. now rewrite remove_docs_nil.
    - intros id [].
    - intros d _ []. }
  unfold reconcile. destruct (failureCount response >? 0) eqn:Hf.
  - destruct (prune_loop_keeps_pruning env (notification_tokens w)
                (failedTokens (responses response) tokens) Hl []
                (sent_world env req w tokens response) Hstart) as [Hr Hp].
    destruct (forEachM _ _ _) as [[u|e] w']; simpl in *; [|discriminate].
    auto.
  - rewrite failedTokens_all_delivered by (now apply well_counted_zero).
    simpl. auto.
Qed.


(** C2, as the code has it: a failed send has its token pruned whatever the
    error kind.  In a broadcast whose lookups work and whose gateway counts
    its failures, with document ids that are unique, the store left once
    the fired deletes have been acknowledged, none of them rejected, is the
    store before the broadcast without the documents whose token is that of
    a failed send; every other document is still there. *)
Theorem failed_tokens_are_pruned (req : Request) (w : World)
  (tokens : list JValue) (response : BatchResponse) :
  broadcast env req w tokens response ->
  lookups_ok env -> deletes_ok env -> well_counted response ->
  NoDup (map docId (notification_tokens w)) ->
  notification_tokens (acknowledged env (snd (sendNotification env req w)))
  = filter (fun d => negb (existsb (strict_eq (token d))
                             (failedTokens (responses response) tokens)))
           (notification_tokens w).
Proof.
  intros Hb Hl Hd Hw Hnd.
  destruct (broadcast_pruning req w tokens response Hb Hl Hw) as [_ Hp].
  now apply pruning_acknowledged_exact.
Qed.

End Broadcast.



(** C2 as stated fails: [B] answers with a transient failure and is pruned
    all the same.  The store held [A] and [B]; the handler fires the delete
    of [B]'s document, and once it is acknowledged [listAll] returns [A]
    alone. *)
Lemma transient_failure_is_pruned :
  broadcast (steady_env 0 (Ok one_busy)) update_request two_devices
    [ VStr "A"; VStr "B" ] one_busy
  /\ nth_error (responses one_busy) 1 = Some (failed_with TransientFailure)
  /\ listAll two_devices = [ VStr "A"; VStr "B" ]
  /\ In (EDelete "d2")
        (trace (snd (sendNotification (steady_env 0 (Ok one_busy))
                       update_request two_devices)))
  /\ listAll (acknowledged (steady_env 0 (Ok one_busy))
                (snd (sendNotification (steady_env 0 (Ok one_busy))
                        update_request two_devices)))
     = [ VStr "A" ].
Proof.
  split; [|split; [|split; [|split]]]; try reflexivity.
  - repeat split; try reflexivity. discriminate.
  - simpl. repeat (first [left; reflexivity | right]).
Qed.

Lemma failed_tokens_are_pruned_witness :
  notification_tokens
    (acknowledged (steady_env 0 (Ok one_busy))
       (snd (sendNotification (steady_env 0 (Ok one_busy)) update_request
               two_devices)))
  = filter (fun d => negb (existsb (strict_eq (token d))
                             (failedTokens (responses one_busy)
                                [ VStr "A"; VStr "B" ])))
           (notification_tokens two_devices).
Proof.
  apply (failed_tokens_are_pruned (steady_env 0 (Ok one_busy)) update_request
           two_devices [ VStr "A"; VStr "B" ] one_busy).
  - repeat split; try reflexivity. discriminate.
  - intros tr v. reflexivity.
  - intros tr id. reflexivity.
  - split; reflexivity.
  - simpl. repeat constructor; simpl; intuition discriminate.
Defined.

(** ** What reaches the gateway (C3) *)

Lemma dedupByValue_distinct (seen tokens : list JValue) :
  NoDup tokens -> (forall t, In t tokens -> ~ In t seen) ->
  dedupByValue seen tokens = tokens.
Proof.
  revert seen. induction tokens as [|t tokens IH]; intros seen Hnd Hfresh; simpl;
    [reflexivity|].
  inversion Hnd as [|? ? Hnotin Hnd']; subst.
  destruct (existsb (strict_eq t) seen) eqn:E.
  - apply existsb_exists in E. destruct E as [x [Hx Heq]].
    apply strict_eq_spec in Heq. subst x.
    exfalso. apply (Hfresh t); [now left | exact Hx].
  - f_equal. apply IH; [exact Hnd'|].
    intros x Hx [Hxt | Hxs].
    + subst x. contradiction.
    + apply (Hfresh x); [now right | exact Hxs].
Qed.

(** C3 as stated fails: two registrations of the value [A] reach the
    gateway as two entries and are counted twice, where deduplication
    leaves one. *)
Lemma duplicates_are_sent_twice :
  broadcast (steady_env 0 (Ok both_delivered)) update_request twin_devices
    [ VStr "A"; VStr "A" ] both_delivered
  /\ multicasts (trace (snd (sendNotification (steady_env 0 (Ok both_delivered))
                               update_request twin_devices)))
     = [ ([ VStr "A"; VStr "A" ],
          message_of (steady_env 0 (Ok both_delivered)) update_request) ]
  /\ option_map (fun r => (status r, totalSent_of r))
       (match fst (sendNotification (steady_env 0 (Ok both_delivered))
                     update_request twin_devices) with
        | Ok r => Some r
        | Throw _ => None
        end)
     = Some (200, Some 2)
  /\ dedupByValue [] (listAll twin_devices) = [ VStr "A" ].
Proof.
  split; [|split; [|split]]; try reflexivity.
  repeat split; try reflexivity. discriminate.
Qed.

(** C3, as the code has it: the fetch is passed on as collected.  In a
    broadcast the gateway is called exactly once, with one entry per stored
    document that carries a truthy token, duplicates included; a 200 answer
    reports that many as [totalSent].  When the stored values are pairwise
    distinct this is each distinct value exactly once. *)
Theorem tokens_are_sent_as_collected (env : Env) (req : Request) (w : World)
  (tokens : list JValue) (response : BatchResponse) :
  broadcast env req w tokens response ->
  tokens = filter truthy (map token (notification_tokens w))
  /\ multicasts (trace (snd (sendNotification env req w)))
     = multicasts (trace w) ++ [ (tokens, message_of env req) ]
  /\ (forall r, fst (sendNotification env req w) = Ok r -> status r = 200 ->
                totalSent_of r = Some (Z.of_nat (length tokens)))
  /\ (NoDup tokens -> dedupByValue [] tokens = tokens).
Proof.
  intros Hb. split; [|split; [|split]].
  - destruct Hb as (_ & _ & _ & _ & Htok & _). rewrite Htok.
    apply collectTokens_spec.
  - rewrite (sendNotification_broadcast env req w tokens response Hb).
    pose proof (reconcile_multicasts env response tokens
                  (sent_world env req w tokens response)) as Hm.
    assert (Hs : multicasts (trace (sent_world env req w tokens response))
                 = multicasts (trace w) ++ [ (tokens, message_of env req) ]).
    { unfold sent_world. simpl. rewrite !multicasts_app. simpl.
      now rewrite !app_nil_r. }
    destruct (reconcile env response tokens _) as [[u|e] w']; simpl in *.
    + now rewrite Hm.
    + rewrite multicasts_app. simpl. rewrite app_nil_r. now rewrite Hm.
  - intros r. rewrite (sendNotification_broadcast env req w tokens response Hb).
    destruct (reconcile env response tokens _) as [[u|e] w']; simpl;
      intros Hr Hst; inversion Hr; subst; simpl in *.
    + reflexivity.
    + discriminate.
  - intros Hnd. apply dedupByValue_distinct; [exact Hnd|].
    intros t _ [].
Qed.

Lemma tokens_are_sent_as_collected_witness :
  multicasts (trace (snd (sendNotification (steady_env 0 (Ok both_delivered))
                            update_request twin_devices)))
  = multicasts (trace twin_devices)
    ++ [ ([ VStr "A"; VStr "A" ],
          message_of (steady_env 0 (Ok both_delivered)) update_request) ].
Proof.
  apply (tokens_are_sent_as_collected (steady_env 0 (Ok both_delivered))
           update_request twin_devices [ VStr "A"; VStr "A" ] both_delivered).
  repeat split; try reflexivity. discriminate.
Defined.

(** ** Faults during reconciliation (C4) *)




(** ** The success rate (C8) *)

Lemma length_append (a b : string) :
  String.length (a ++ b) = (String.length a + String.length b)%nat.
Proof. induction a as [|c a IH]; simpl; [reflexivity | now rewrite IH]. Qed.

Lemma showZ_nonempty (z : Z) : (1 <= String.length (showZ z))%nat.
Proof.
  unfold showZ, NilZero.string_of_int.
  destruct (Z.to_int z) as [d|d]; destruct d; simpl; lia.
Qed.

Lemma two_digits_nonempty (n : Z) : (1 <= String.length (two_digits n))%nat.
Proof.
  unfold two_digits. destruct (n <? 10).
  - rewrite length_append. simpl. lia.
  - apply showZ_nonempty.
Qed.

(** Whatever the double, [toFixed(2)] prints at least two characters. *)
Lemma toFixed2_length (x : PrimFloat.float) :
  (2 <= String.length (toFixed2 x))%nat.
Proof.
  unfold toFixed2. destruct (FloatOps.Prim2SF x) as [s|s| |s m e].
  - simpl. lia.
  - destruct s; simpl; lia.
  - simpl. lia.
  - rewrite !length_append.
    pose proof (two_digits_nonempty (hundredths m e mod 100)).
    simpl (String.length "."). lia.
Qed.

Lemma successRate_zero_percent (totalSent totalFailed : Z) :
  successRate totalSent totalFailed = "0%" <-> totalSent <= 0.
Proof.
  unfold successRate. destruct (totalSent >? 0) eqn:E.
  - apply Z.gtb_lt in E. split; [|lia].
    intros H. apply (f_equal String.length) in H.
    rewrite length_append in H. simpl in H.
    pose proof (toFixed2_length (ratePercent totalSent totalFailed)).
    lia.
  - split; [|reflexivity]. intros _.
    destruct (Z.gtb_spec totalSent 0); [discriminate | lia].
Qed.

Lemma sumLogs_total (logs : list LogEntry) (totalSent totalFailed : Z) :
  sumLogs logs totalSent totalFailed
  = (totalSent + total (map (fun l => orZero (sentCount l)) logs),
     totalFailed + total (map (fun l => orZero (log_failureCount l)) logs)).
Proof.
  revert totalSent totalFailed.
  induction logs as [|l logs IH]; intros s f; simpl.
  - now rewrite !Z.add_0_r.
  - rewrite IH. f_equal; lia.
Qed.

Lemma total_nonneg (counts : list Z) :
  (forall c, In c counts -> 0 <= c) -> 0 <= total counts.
Proof.
  induction counts as [|c counts IH]; simpl; intros H; [lia|].
  assert (0 <= c) by (apply H; now left).
  assert (0 <= total counts) by (apply IH; intros; apply H; now right).
  lia.
Qed.

(** C8 as stated fails: with nothing sent and five failures in the window
    the rate reads ["0%"] although [sent + failed] is 5; the quotient
    formatted with two decimals would read ["0.00"]. *)
Lemma all_failed_reads_zero_percent :
  fst (getNotificationStats (steady_env 1000 (Throw "down")) stats_request
         all_failed_log)
  = Ok (mkResponse 200
          (JO [ ("totalTokens", jnum 0);
                ("successRate", jstr "0%");
                ("last30Days",
                 JO [ ("sent", jnum 0); ("failed", jnum 5);
                      ("total", jnum 5) ]) ]))
  /\ successRate 0 5 = "0%"
  /\ 0 + 5 <> 0
  /\ toFixed2 (ratePercent 0 5) = "0.00".
Proof.
  split; [|split; [|split]]; try reflexivity. discriminate.
Qed.

(** C8, as the code has it: the guard is on [totalSent] alone.  For a log
    whose entries of the last thirty days hold counts that are not negative
    and add up to at most [2^53], so that the sums of doubles are the sums
    of integers: the handler sums the two counts over those entries and
    answers 200; the rate is exactly ["0%"] precisely when nothing was sent
    ([sent = 0]), which covers [sent + failed = 0]; otherwise it is the
    quotient [sent / (sent + failed) * 100] printed by [toFixed(2)] and
    followed by a percent sign, and the divisor is positive. *)
Theorem success_rate_guard (env : Env) (req : Request) (w : World) :
  method req = "GET" ->
  tokensGet_fault env (trace w) = None ->
  logsQuery_fault env (trace w ++ [EGetTokens]) = None ->
  let recent := filter (newer_than (now env - thirty_days_ms))
                       (notification_logs w) in
  let sent := total (map (fun l => orZero (sentCount l)) recent) in
  let failed := total (map (fun l => orZero (log_failureCount l)) recent) in
  (forall l, In l recent ->
     0 <= orZero (sentCount l) /\ 0 <= orZero (log_failureCount l)) ->
  sent + failed <= 2 ^ 53 ->
  fst (getNotificationStats env req w)
  = Ok (mkResponse 200
          (stats_body (Z.of_nat (length (notification_tokens w))) sent failed))
  /\ (successRate sent failed = "0%" <-> sent = 0)
  /\ (0 < sent ->
      successRate sent failed
      = (toFixed2 (ratePercent sent failed) ++ "%")%string)
  /\ (0 < sent -> 0 < sent + failed).
Proof.
  intros Hm Hg Hq recent sent failed Hnn _.
  assert (Hs0 : 0 <= sent).
  { apply total_nonneg. intros c Hc. apply in_map_iff in Hc.
    destruct Hc as [l [Hl Hin]]. subst c. now apply Hnn. }
  split; [|split; [|split]].
  - unfold getNotificationStats, try_catch. rewrite Hm. simpl.
    unfold bind, getTokens. rewrite Hg.
    unfold queryLogs.
    change (trace (emit EGetTokens w)) with (trace w ++ [EGetTokens]).
    rewrite Hq. cbn [notification_logs emit].
    fold recent. rewrite sumLogs_total. simpl.
    unfold snapshot_of. rewrite length_map. reflexivity.
  - rewrite successRate_zero_percent. lia.
  - intros Hs. unfold successRate.
    destruct (Z.gtb_spec sent 0); [reflexivity | lia].
  - intros Hs.
    assert (0 <= failed); [|lia].
    apply total_nonneg. intros c Hc. apply in_map_iff in Hc.
    destruct Hc as [l [Hl Hin]]. subst c. now apply Hnn.
Qed.

Lemma success_rate_guard_witness :
  fst (getNotificationStats (steady_env 1000 (Throw "down")) stats_request
         all_failed_log)
  = Ok (mkResponse 200 (stats_body 0 0 5)).
Proof.
  apply (success_rate_guard (steady_env 1000 (Throw "down")) stats_request
           all_failed_log); try reflexivity.
  - intros l Hl. simpl in Hl.
    repeat (destruct Hl as [Hl | Hl]; [subst l; simpl; lia|]).
    destruct Hl.
  - vm_compute. discriminate.
Defined.

(** ** The cleanup job (C9) *)

Lemma queueDeletes_spec (snapshot : list DocSnap) (batch : list string)
  (deletedCount : Z) :
  queueDeletes snapshot batch deletedCount
  = (batch ++ map (fun doc => docId (doc_data doc)) snapshot,
     deletedCount + Z.of_nat (length snapshot)).
Proof.
  revert batch deletedCount.
  induction snapshot as [|doc snapshot IH]; intros batch n; simpl queueDeletes.
  - rewrite app_nil_r. f_equal. simpl. lia.
  - rewrite IH, <- app_assoc. f_equal. simpl length. lia.
Qed.

Lemma filter_none {A} (p : A -> bool) (l : list A) :
  (forall x, In x l -> p x = false) -> filter p l = [].
Proof.
  induction l as [|x l IH]; simpl; intros H; [reflexivity|].
  rewrite (H x) by (now left). apply IH. intros y Hy. apply H. now right.
Qed.

(** Once the matches of a filter are removed by reference, the filter
    matches nothing. *)
Lemma nothing_aged_is_left (cutoff : Z) (docs : list TokenDoc) :
  filter (older_than cutoff)
    (remove_docs (map docId (filter (older_than cutoff) docs)) docs) = [].
Proof.
  apply filter_none. intros d Hd.
  apply filter_In in Hd. destruct Hd as [Hin Hex].
  destruct (older_than cutoff d) eqn:E; [|reflexivity].
  apply negb_true_iff in Hex.
  assert (Hyes : existsb (String.eqb (docId d))
                   (map docId (filter (older_than cutoff) docs)) = true).
  { apply existsb_exists. exists (docId d). split; [|apply String.eqb_refl].
    apply in_map. apply filter_In. auto. }
  congruence.
Qed.

Section Cleanup.

Variable env : Env.

Hypothesis query_works : forall tr, agedQuery_fault env tr = None.
Hypothesis commit_works : forall tr ids, batchCommit_fault env tr ids = None.

(** One run of the job with a store that works: the count reported is the
    number of documents whose [timestamp] is before the cutoff, and they
    are the ones removed. *)
Lemma cleanupTokens_run (w : World) :
  let aged := filter (older_than (now env - ninety_days_ms))
                     (notification_tokens w) in
  exists tr,
    cleanupTokens env w
    = (Ok (mkCleanupReport
             ("Cleaned up " ++ showZ (Z.of_nat (length aged)) ++ " tokens")
             (now env)),
       mkWorld (remove_docs (map docId aged) (notification_tokens w))
               (notification_logs w) tr).
Proof.
  intros aged. unfold cleanupTokens, try_catch, bind, consoleLog, queryAged.
  rewrite query_works. cbn [notification_tokens emit]. fold aged.
  rewrite queueDeletes_spec. unfold batchCommit. rewrite commit_works.
  unfold snapshot_of. rewrite map_map, length_map. simpl.
  eexists. reflexivity.
Qed.

End Cleanup.

(** C9: with a store that works, a second run of the job right after the
    first, at the same clock reading and hence the same cutoff, reports 0
    deleted tokens and leaves the store as the first run left it.  The count
    of the first run is the number of documents older than the cutoff:
    nothing but the [timestamp] field decides. *)
Theorem cleanup_is_idempotent (env : Env) (w : World) :
  (forall tr, agedQuery_fault env tr = None) ->
  (forall tr ids, batchCommit_fault env tr ids = None) ->
  let aged := filter (older_than (now env - ninety_days_ms))
                     (notification_tokens w) in
  fst (cleanupTokens env w)
  = Ok (mkCleanupReport
          ("Cleaned up " ++ showZ (Z.of_nat (length aged)) ++ " tokens")
          (now env))
  /\ fst (cleanupTokens env (snd (cleanupTokens env w)))
     = Ok (mkCleanupReport "Cleaned up 0 tokens" (now env))
  /\ notification_tokens (snd (cleanupTokens env (snd (cleanupTokens env w))))
     = notification_tokens (snd (cleanupTokens env w)).
Proof.
  intros Hq Hc. cbv zeta.
  destruct (cleanupTokens_run env Hq Hc w) as [tr1 H1]. cbv zeta in H1.
  rewrite H1. cbn [fst snd].
  match goal with
  | |- context [cleanupTokens env ?w1] =>
      destruct (cleanupTokens_run env Hq Hc w1) as [tr2 H2]
  end.
  cbv zeta in H2. cbn [notification_tokens notification_logs] in H2.
  rewrite nothing_aged_is_left in H2.
  rewrite H2. cbn [fst snd notification_tokens map].
  rewrite remove_docs_nil. auto.
Qed.

Lemma cleanup_is_idempotent_witness :
  fst (cleanupTokens (steady_env (ninety_days_ms + 10) (Throw "down")) old_and_new)
  = Ok (mkCleanupReport "Cleaned up 1 tokens" (ninety_days_ms + 10))
  /\ fst (cleanupTokens (steady_env (ninety_days_ms + 10) (Throw "down"))
            (snd (cleanupTokens (steady_env (ninety_days_ms + 10) (Throw "down"))
                    old_and_new)))
     = Ok (mkCleanupReport "Cleaned up 0 tokens" (ninety_days_ms + 10)).
Proof.
  pose proof (cleanup_is_idempotent
                (steady_env (ninety_days_ms + 10) (Throw "down")) old_and_new
                (fun tr => eq_refl) (fun tr ids => eq_refl)) as H.
  destruct H as [H1 [H2 _]]. split; [exact H1 | exact H2].
Defined.

(** ** Scenarios of the specification, run *)

(** Store [A, B]; the gateway reports [A] delivered and [B] an invalid
    handle: the report counts 1, 1 and 2, and once the delete is
    acknowledged the store is left with [A]. *)
Example scenario_one_invalid_handle :
  fst (sendNotification (steady_env 0 (Ok one_lost)) update_request two_devices)
  = Ok (mkResponse 200
          (JO [ ("success", jbool true);
                ("successCount", jnum 1);
                ("failureCount", jnum 1);
                ("totalSent", jnum 2);
                ("message", jstr "Notification sent to 1 devices") ]))
  /\ notification_tokens
       (acknowledged (steady_env 0 (Ok one_lost))
          (snd (sendNotification (steady_env 0 (Ok one_lost)) update_request
                  two_devices)))
     = [ mkTokenDoc "d1" (VStr "A") (Some 0) ].
Proof. split; reflexivity. Qed.

(** Version 1.0 to 1.1 with three live tokens, all delivered: the trigger
    returns the gateway's answer and one log entry is written, with the new
    version and the counts. *)
Example scenario_update_three_tokens :
  fst (notifyOnAppUpdate (steady_env 7 (Ok all_three_delivered))
         new_version_change (mkEventContext "mirror") three_devices)
  = Ok (Some all_three_delivered)
  /\ notification_logs
       (snd (notifyOnAppUpdate (steady_env 7 (Ok all_three_delivered))
               new_version_change (mkEventContext "mirror") three_devices))
     = [ mkLogEntry (VStr "mirror") (VStr "Mirror") "UPDATE" (VStr "1.1")
           (Some 3) (Some 0) 7 ].
Proof. split; reflexivity. Qed.

(** A few rates as line 350 prints them. *)
Example rates_as_printed :
  successRate 1 2 = "33.33%" /\ successRate 2 1 = "66.67%"
  /\ successRate 3 0 = "100.00%" /\ successRate 1 7 = "12.50%"
  /\ successRate 0 0 = "0%".
Proof. repeat split; reflexivity. Qed.

(** * Further properties of the handlers *)

(** ** Relations every step keeps *)

Section Keeping.

Variable R : World -> World -> Prop.
Hypothesis R_refl : forall w, R w w.
Hypothesis R_trans : forall a b c, R a b -> R b c -> R a c.

Lemma keeps_ret {A} (a : A) : keeps R (ret a).
Proof. intros w. apply R_refl. Qed.

Lemma keeps_throw {A} (e : string) : keeps R (@throw A e).
Proof. intros w. apply R_refl. Qed.

Lemma keeps_bind {A B} (m : M A) (k : A -> M B) :
  keeps R m -> (forall a, keeps R (k a)) -> keeps R (bind m k).
Proof.
  intros Hm Hk w. unfold bind. specialize (Hm w).
  destruct (m w) as [[a|e] w1]; simpl in *; [|exact Hm].
  eapply R_trans; [exact Hm | apply Hk].
Qed.

Lemma keeps_try_catch {A} (body : M A) (handler : string -> M A) :
  keeps R body -> (forall e, keeps R (handler e)) ->
  keeps R (try_catch body handler).
Proof.
  intros Hb Hh w. unfold try_catch. specialize (Hb w).
  destruct (body w) as [[a|e] w1]; simpl in *; [exact Hb|].
  eapply R_trans; [exact Hb | apply Hh].
Qed.

Lemma keeps_forEachM {A} (f : A -> M unit) (l : list A) :
  (forall x, keeps R (f x)) -> keeps R (forEachM f l).
Proof.
  intros Hf. induction l as [|x l IH]; simpl.
  - apply keeps_ret.
  - apply keeps_bind; [apply Hf | intros _; exact IH].
Qed.

(** A step that only writes to the trace. *)
Lemma keeps_emit_only {A} (m : M A) :
  (forall e w, R w (emit e w)) ->
  (forall w, exists e, snd (m w) = emit e w) ->
  keeps R m.
Proof. intros He Hm w. destruct (Hm w) as [e Hw]. rewrite Hw. apply He. Qed.

End Keeping.

Lemma same_store_refl (w : World) : same_store w w.
Proof. split; reflexivity. Qed.

Lemma same_store_trans (a b c : World) :
  same_store a b -> same_store b c -> same_store a c.
Proof. intros [H1 H2] [H3 H4]. split; congruence. Qed.

Lemma store_shrinks_refl (w : World) : store_shrinks w w.
Proof. split; [apply incl_refl | reflexivity]. Qed.

Lemma store_shrinks_trans (a b c : World) :
  store_shrinks a b -> store_shrinks b c -> store_shrinks a c.
Proof.
  intros [H1 H2] [H3 H4]. split; [|congruence].
  eapply incl_tran; eassumption.
Qed.

Lemma no_store_call_refl (w : World) : no_store_call w w.
Proof. reflexivity. Qed.

Lemma no_store_call_trans (a b c : World) :
  no_store_call a b -> no_store_call b c -> no_store_call a c.
Proof. unfold no_store_call. congruence. Qed.

Lemma no_gateway_call_refl (w : World) : no_gateway_call w w.
Proof. reflexivity. Qed.

Lemma no_gateway_call_trans (a b c : World) :
  no_gateway_call a b -> no_gateway_call b c -> no_gateway_call a c.
Proof. unfold no_gateway_call. congruence. Qed.

Lemma same_store_shrinks (w w' : World) : same_store w w' -> store_shrinks w w'.
Proof. intros [H1 H2]. split; [rewrite H1; apply incl_refl | exact H2]. Qed.

(** ** The steps, one by one *)

Section Steps.

Variable env : Env.

Lemma emit_same_store (e : Event) (w : World) : same_store w (emit e w).
Proof. split; reflexivity. Qed.

Lemma consoleLog_emits (text : string) (w : World) :
  exists e, snd (consoleLog text w) = emit e w.
Proof. eexists. reflexivity. Qed.

Lemma consoleError_emits (label message : string) (w : World) :
  exists e, snd (consoleError label message w) = emit e w.
Proof. eexists. reflexivity. Qed.

Lemma getTokens_emits (w : World) :
  exists e, snd (getTokens env w) = emit e w.
Proof.
  unfold getTokens. destruct (tokensGet_fault env (trace w)); eexists; reflexivity.
Qed.

Lemma queryByToken_shrinks (v : JValue) :
  keeps store_shrinks (queryByToken env v).
Proof.
  intros w. unfold queryByToken.
  destruct (tokenQuery_fault env (trace w) v); simpl;
    (split; [apply remove_docs_incl | reflexivity]).
Qed.

Lemma queryLogs_emits (cutoff : Z) (w : World) :
  exists e, snd (queryLogs env cutoff w) = emit e w.
Proof.
  unfold queryLogs. destruct (logsQuery_fault env (trace w)); eexists; reflexivity.
Qed.

Lemma sendMulticast_emits (tokens : list JValue) (message : Json) (w : World) :
  exists e, snd (sendMulticast env tokens message w) = emit e w.
Proof. eexists. reflexivity. Qed.

Lemma send_emits (message : Json) (w : World) :
  exists e, snd (send env message w) = emit e w.
Proof.
  unfold send. destruct (fcm_send env (trace w) message); eexists; reflexivity.
Qed.

Lemma toStringOf_same_world (v : JValue) (w : World) :
  snd (toStringOf v w) = w.
Proof. destruct v; reflexivity. Qed.

Lemma deleteRef_shrinks (d : DocSnap) : keeps store_shrinks (deleteRef d).
Proof. intros w. split; [apply incl_refl | reflexivity]. Qed.

End Steps.

Lemma keeps_same_world {A} (R : World -> World -> Prop) (m : M A) :
  (forall w, R w w) -> (forall w, snd (m w) = w) -> keeps R m.
Proof. intros Hr Hm w. rewrite Hm. apply Hr. Qed.

Lemma keeps_weaken {A} (R R' : World -> World -> Prop) (m : M A) :
  (forall w w', R w w' -> R' w w') -> keeps R m -> keeps R' m.
Proof. intros H Hm w. apply H, Hm. Qed.

(** Splits a handler into its steps, for a relation that every write to the
    trace keeps. *)
Ltac keeping refl trans emits :=
  repeat (intros;
    match goal with
    | |- keeps _ (try_catch _ _) => apply (keeps_try_catch _ trans)
    | |- keeps _ (bind _ _) => apply (keeps_bind _ trans)
    | |- keeps _ (ret _) => apply (keeps_ret _ refl)
    | |- keeps _ (throw _) => apply (keeps_throw _ refl)
    | |- keeps _ (forEachM _ _) => apply (keeps_forEachM _ refl trans)
    | |- keeps _ (if ?b then _ else _) => destruct b
    | |- keeps _ (match ?p with (_, _) => _ end) => destruct p
    | |- keeps _ (consoleLog _) =>
        apply keeps_emit_only; [exact emits | apply consoleLog_emits]
    | |- keeps _ (consoleError _ _) =>
        apply keeps_emit_only; [exact emits | apply consoleError_emits]
    | |- keeps _ (getTokens _) =>
        apply keeps_emit_only; [exact emits | apply getTokens_emits]
    | |- keeps store_shrinks (queryByToken _ _) => apply queryByToken_shrinks
    | |- keeps _ (queryLogs _ _) =>
        apply keeps_emit_only; [exact emits | apply queryLogs_emits]
    | |- keeps _ (sendMulticast _ _ _) =>
        apply keeps_emit_only; [exact emits | apply sendMulticast_emits]
    | |- keeps _ (send _ _) =>
        apply keeps_emit_only; [exact emits | apply send_emits]
    | |- keeps _ (toStringOf _) =>
        apply keeps_same_world; [exact refl | apply toStringOf_same_world]
    end).

Lemma emit_store_shrinks (e : Event) (w : World) : store_shrinks w (emit e w).
Proof. apply same_store_shrinks, emit_same_store. Qed.

(** ** What the handlers leave alone *)

(** X7: [sendNotification] never adds a token and never writes to the log,
    whatever the request and whatever faults: the store can only lose
    documents. *)
Theorem sendNotification_only_shrinks_store (env : Env) (req : Request)
  (w : World) :
  incl (notification_tokens (snd (sendNotification env req w)))
       (notification_tokens w)
  /\ notification_logs (snd (sendNotification env req w)) = notification_logs w.
Proof.
  revert w. change (keeps store_shrinks (sendNotification env req)).
  unfold sendNotification, reconcile, pruneToken. cbv zeta.
  keeping store_shrinks_refl store_shrinks_trans emit_store_shrinks.
  apply deleteRef_shrinks.
Qed.

(** X14: [sendDownloadProgress] leaves both collections as they were, whatever
    the request and whatever the gateway answers: the tokens of its failed
    sends are not pruned. *)
Theorem sendDownloadProgress_leaves_store (env : Env) (req : Request)
  (w : World) :
  notification_tokens (snd (sendDownloadProgress env req w))
  = notification_tokens w
  /\ notification_logs (snd (sendDownloadProgress env req w))
     = notification_logs w.
Proof.
  revert w. change (keeps same_store (sendDownloadProgress env req)).
  unfold sendDownloadProgress. cbv zeta.
  keeping same_store_refl same_store_trans emit_same_store.
Qed.

Lemma emit_no_store_call (e : Event) (w : World) :
  is_store_call e = false -> no_store_call w (emit e w).
Proof.
  intros He. unfold no_store_call. simpl. rewrite filter_app. simpl.
  rewrite He. apply app_nil_r.
Qed.

Lemma emit_no_gateway_call (e : Event) (w : World) :
  is_gateway_call e = false -> no_gateway_call w (emit e w).
Proof.
  intros He. unfold no_gateway_call. simpl. rewrite filter_app. simpl.
  rewrite He. apply app_nil_r.
Qed.

Section QuietSteps.

Variable env : Env.

Lemma consoleLog_no_store_call (text : string) :
  keeps no_store_call (consoleLog text).
Proof. intros w. now apply emit_no_store_call. Qed.

Lemma consoleError_no_store_call (label message : string) :
  keeps no_store_call (consoleError label message).
Proof. intros w. now apply emit_no_store_call. Qed.

Lemma send_no_store_call (message : Json) :
  keeps no_store_call (send env message).
Proof.
  intros w. unfold send. destruct (fcm_send env (trace w) message);
    now apply emit_no_store_call.
Qed.

Lemma consoleLog_no_gateway_call (text : string) :
  keeps no_gateway_call (consoleLog text).
Proof. intros w. now apply emit_no_gateway_call. Qed.

Lemma consoleError_no_gateway_call (label message : string) :
  keeps no_gateway_call (consoleError label message).
Proof. intros w. now apply emit_no_gateway_call. Qed.

Lemma getTokens_no_gateway_call : keeps no_gateway_call (getTokens env).
Proof.
  intros w. unfold getTokens. destruct (tokensGet_fault env (trace w));
    now apply emit_no_gateway_call.
Qed.

Lemma queryLogs_no_gateway_call (cutoff : Z) :
  keeps no_gateway_call (queryLogs env cutoff).
Proof.
  intros w. unfold queryLogs. destruct (logsQuery_fault env (trace w));
    now apply emit_no_gateway_call.
Qed.

Lemma queryAged_no_gateway_call (cutoff : Z) :
  keeps no_gateway_call (queryAged env cutoff).
Proof.
  intros w. unfold queryAged. destruct (agedQuery_fault env (trace w));
    now apply emit_no_gateway_call.
Qed.

Lemma batchCommit_no_gateway_call (ids : list string) :
  keeps no_gateway_call (batchCommit env ids).
Proof.
  intros w. unfold batchCommit. destruct (batchCommit_fault env (trace w) ids);
    now apply emit_no_gateway_call.
Qed.

End QuietSteps.

(** Splits a handler into its steps and hands each step to [step]. *)
Ltac keeping_by refl trans step :=
  repeat (intros;
    match goal with
    | |- keeps _ (try_catch _ _) => apply (keeps_try_catch _ trans)
    | |- keeps _ (bind _ _) => apply (keeps_bind _ trans)
    | |- keeps _ (ret _) => apply (keeps_ret _ refl)
    | |- keeps _ (throw _) => apply (keeps_throw _ refl)
    | |- keeps _ (forEachM _ _) => apply (keeps_forEachM _ refl trans)
    | |- keeps _ (if ?b then _ else _) => destruct b
    | |- keeps _ (match ?p with (_, _) => _ end) => destruct p
    | |- keeps _ _ => step
    end).

(** X4: [testNotification] goes straight to the gateway: whatever the request
    and whatever the gateway says, the store is neither read nor written. *)
Theorem testNotification_bypasses_store (env : Env) (req : Request)
  (w : World) :
  filter is_store_call (trace (snd (testNotification env req w)))
  = filter is_store_call (trace w)
  /\ notification_tokens (snd (testNotification env req w))
     = notification_tokens w
  /\ notification_logs (snd (testNotification env req w))
     = notification_logs w.
Proof.
  split.
  - revert w. change (keeps no_store_call (testNotification env req)).
    unfold testNotification. cbv zeta.
    keeping_by no_store_call_refl no_store_call_trans
      ltac:(first [ apply send_no_store_call
                  | apply consoleError_no_store_call ]).
  - revert w. change (keeps same_store (testNotification env req)).
    unfold testNotification. cbv zeta.
    keeping same_store_refl same_store_trans emit_same_store.
Qed.

(** X21: [getNotificationStats] only reads: whatever the request and whatever
    faults, both collections are as they were and the gateway is not
    called. *)
Theorem getNotificationStats_only_reads (env : Env) (req : Request)
  (w : World) :
  notification_tokens (snd (getNotificationStats env req w))
  = notification_tokens w
  /\ notification_logs (snd (getNotificationStats env req w))
     = notification_logs w
  /\ filter is_gateway_call (trace (snd (getNotificationStats env req w)))
     = filter is_gateway_call (trace w).
Proof.
  rewrite <- and_assoc. split.
  - revert w. change (keeps same_store (getNotificationStats env req)).
    unfold getNotificationStats. cbv zeta.
    keeping same_store_refl same_store_trans emit_same_store.
  - revert w. change (keeps no_gateway_call (getNotificationStats env req)).
    unfold getNotificationStats. cbv zeta.
    keeping_by no_gateway_call_refl no_gateway_call_trans
      ltac:(first [ apply getTokens_no_gateway_call
                  | apply queryLogs_no_gateway_call
                  | apply consoleError_no_gateway_call ]).
Qed.

(** ** The update trigger, beyond its early returns *)

(** Runs a handler by cases on what its collaborators answer. *)
Ltac by_cases_of_run :=
  repeat (match goal with
          | |- context [match ?x with _ => _ end] =>
              lazymatch x with
              | context [match _ with _ => _ end] => fail
              | _ => destruct x eqn:?
              end
          end; cbn [fst snd]).

Section UpdateTrigger.

Variable env : Env.

(** X17: [notifyOnAppUpdate] never touches the tokens, and writes at most one
    log entry, the one of its own send: unlike [sendNotification] it prunes
    nothing, whatever the gateway reports. *)
Theorem notifyOnAppUpdate_never_prunes (change : Change)
  (context : EventContext) (w : World) :
  notification_tokens (snd (notifyOnAppUpdate env change context w))
  = notification_tokens w
  /\ (notification_logs (snd (notifyOnAppUpdate env change context w))
      = notification_logs w
      \/ exists response,
           notification_logs (snd (notifyOnAppUpdate env change context w))
           = notification_logs w ++ [update_entry env change context response]).
Proof.
  unfold notifyOnAppUpdate, try_catch, bind, consoleLog, consoleError,
    getTokens, sendMulticast, logAdd, throw, ret, update_entry.
  cbv zeta. by_cases_of_run; split; try reflexivity; try (left; reflexivity).
  right. eexists. reflexivity.
Qed.

(** The run of the trigger when every collaborator does its part. *)
Lemma update_run (change : Change) (context : EventContext)
  (w : World) (response : BatchResponse) :
  field "version" (before change) <> field "version" (after change) ->
  (forall tr, tokensGet_fault env tr = None) ->
  (forall tr, logAdd_fault env tr = None) ->
  listAll w <> [] ->
  (forall tr, fcm_sendMulticast env tr (listAll w)
                (updateMessage env (params_appId context) (after change))
              = Ok response) ->
  exists w',
    notifyOnAppUpdate env change context w = (Ok (Some response), w')
    /\ notification_tokens w' = notification_tokens w
    /\ notification_logs w'
       = notification_logs w ++ [update_entry env change context response]
    /\ multicasts (trace w')
       = multicasts (trace w)
         ++ [ (listAll w,
               updateMessage env (params_appId context) (after change)) ].
Proof.
  intros Hv Hg Hl Hne Hs.
  unfold notifyOnAppUpdate, try_catch.
  destruct (strict_eq _ _) eqn:E; [apply strict_eq_spec in E; contradiction|].
  unfold bind at 1. unfold consoleLog.
  unfold bind at 1. unfold getTokens. rewrite Hg.
  cbn [notification_tokens emit]. fold (listAll w).
  destruct (listAll w) as [|t0 rest] eqn:Etok; [contradiction|].
  cbn [length Nat.eqb].
  unfold bind, sendMulticast, logAdd, consoleLog, ret.
  rewrite Hs. cbv beta iota. rewrite Hl. cbv beta iota.
  eexists. split; [reflexivity|].
  cbn [fst snd notification_logs notification_tokens emit set_logs trace].
  unfold update_entry. split; [reflexivity|]. split; [reflexivity|].
  rewrite !multicasts_app. simpl. now rewrite !app_nil_r.
Qed.

(** X16: A send that goes through is logged: with a changed version, a fetch
    that works and collects tokens, a gateway that answers and a log that
    accepts the write, the trigger returns the gateway's answer, has called
    the gateway once with every token, and the log has grown by exactly the
    entry of this send, counts, new version and clock reading included. *)
Theorem update_is_logged (change : Change) (context : EventContext)
  (w : World) (response : BatchResponse) :
  field "version" (before change) <> field "version" (after change) ->
  (forall tr, tokensGet_fault env tr = None) ->
  (forall tr, logAdd_fault env tr = None) ->
  listAll w <> [] ->
  (forall tr, fcm_sendMulticast env tr (listAll w)
                (updateMessage env (params_appId context) (after change))
              = Ok response) ->
  fst (notifyOnAppUpdate env change context w) = Ok (Some response)
  /\ notification_logs (snd (notifyOnAppUpdate env change context w))
     = notification_logs w ++ [update_entry env change context response]
  /\ multicasts (trace (snd (notifyOnAppUpdate env change context w)))
     = multicasts (trace w)
       ++ [ (listAll w,
             updateMessage env (params_appId context) (after change)) ].
Proof.
  intros Hv Hg Hl Hne Hs.
  destruct (update_run change context w response Hv Hg Hl Hne Hs)
    as [w' [Hrun [_ [Hlog Hmc]]]].
  rewrite Hrun. auto.
Qed.

(** X18: A failure of the trigger is never swallowed: whenever it throws, the
    message is the one of the failed call, it has been written to the
    console as the last thing done, and no log entry has been written. *)
Theorem update_failure_is_resignalled (change : Change)
  (context : EventContext) (w w' : World) (e : string) :
  notifyOnAppUpdate env change context w = (Throw e, w') ->
  (exists tr, trace w'
              = tr ++ [ EConsoleError "Error notifying on app update:" e ])
  /\ notification_logs w' = notification_logs w
  /\ (tokensGet_fault env (trace w
                            ++ [ EConsoleLog
                                   ("App " ++ params_appId context
                                    ++ " updated from "
                                    ++ toStr (field "version" (before change))
                                    ++ " to "
                                    ++ toStr (field "version" (after change))) ])
      = Some e
      \/ (exists tr, fcm_sendMulticast env tr (listAll w)
                       (updateMessage env (params_appId context) (after change))
                     = Throw e)
      \/ (exists tr, logAdd_fault env tr = Some e)).
Proof.
  unfold notifyOnAppUpdate, try_catch, bind, consoleLog, consoleError,
    getTokens, sendMulticast, logAdd, throw, ret, listAll.
  cbv zeta. by_cases_of_run; intros H; inversion H; subst;
    cbn [trace emit notification_logs set_logs] in *;
    (split; [eexists; reflexivity | split; [reflexivity|]]);
    first [ left; assumption
          | right; left; eexists; eassumption
          | right; right; eexists; eassumption ].
Qed.

End UpdateTrigger.

(** ** [sendNotification] when a collaborator fails, and around the loop *)

Section BroadcastEdges.

Variable env : Env.

(** X5: A fetch that is rejected is a 500 with the store's message, not the 404
    of an empty store; the gateway is not called and nothing else is done. *)
Theorem fetch_fault_is_500 (req : Request) (w : World) (e : string) :
  method req = "POST" ->
  truthy (field "appId" (body req)) = true ->
  truthy (field "type" (body req)) = true ->
  tokensGet_fault env (trace w) = Some e ->
  sendNotification env req w
  = (Ok (mkResponse 500 (error_body e)),
     emit (EConsoleError "Error sending notification:" e) (emit EGetTokens w)).
Proof.
  intros Hm Ha Ht Hg. unfold sendNotification, try_catch.
  rewrite Hm, Ha, Ht. simpl. unfold bind, getTokens. rewrite Hg. reflexivity.
Qed.

(** X6: A multicast that the gateway rejects as a whole is a 500 with the
    gateway's message; no token is looked up or deleted. *)
Theorem gateway_fault_is_500 (req : Request) (w : World) (e : string) :
  method req = "POST" ->
  truthy (field "appId" (body req)) = true ->
  truthy (field "type" (body req)) = true ->
  tokensGet_fault env (trace w) = None ->
  listAll w <> [] ->
  fcm_sendMulticast env (trace w ++ [EGetTokens]) (listAll w) (message_of env req)
  = Throw e ->
  sendNotification env req w
  = (Ok (mkResponse 500 (error_body e)),
     emit (EConsoleError "Error sending notification:" e)
       (emit (ESendMulticast (listAll w) (message_of env req))
          (emit EGetTokens w))).
Proof.
  intros Hm Ha Ht Hg Hne Hs. unfold sendNotification, try_catch.
  rewrite Hm, Ha, Ht. simpl. unfold bind at 1. unfold getTokens. rewrite Hg.
  fold (listAll w). destruct (listAll w) as [|t0 rest] eqn:E; [contradiction|].
  cbn [length Nat.eqb]. unfold bind at 1. unfold sendMulticast.
  change (trace (emit EGetTokens w)) with (trace w ++ [EGetTokens]).
  unfold message_of in Hs. rewrite Hs. reflexivity.
Qed.

Lemma multicasts_of_run (req : Request) (w : World) :
  exists extra,
    multicasts (trace (snd (sendNotification env req w)))
    = multicasts (trace w) ++ extra
    /\ (extra = []
        \/ (listAll w <> [] /\ extra = [ (listAll w, message_of env req) ])).
Proof.
  unfold sendNotification, try_catch.
  destruct (negb (String.eqb (method req) "POST")).
  { exists []. rewrite app_nil_r. auto. }
  cbv zeta.
  destruct (negb (truthy (field "appId" (body req)))
            || negb (truthy (field "type" (body req)))).
  { exists []. rewrite app_nil_r. auto. }
  unfold bind at 1. unfold getTokens.
  destruct (tokensGet_fault env (trace w)) as [e|].
  { exists []. split; [|auto]. simpl. rewrite !multicasts_app. simpl.
    now rewrite !app_nil_r. }
  fold (listAll w). destruct (listAll w) as [|t0 rest] eqn:E.
  { exists []. split; [|auto]. simpl. rewrite multicasts_app. simpl.
    now rewrite !app_nil_r. }
  exists [ (t0 :: rest, message_of env req) ].
  split; [|right; split; [discriminate | reflexivity]].
  cbn [length Nat.eqb]. unfold bind at 1. unfold sendMulticast.
  fold (message_of env req).
  set (w1 := emit (ESendMulticast (t0 :: rest) (message_of env req))
               (emit EGetTokens w)).
  assert (H1 : multicasts (trace w1)
               = multicasts (trace w) ++ [ (t0 :: rest, message_of env req) ]).
  { unfold w1. simpl. rewrite !multicasts_app. simpl. now rewrite !app_nil_r. }
  destruct (fcm_sendMulticast env _ _ _) as [response|e].
  - unfold bind at 1. unfold consoleLog.
    set (w2 := emit _ w1).
    assert (H2 : multicasts (trace w2) = multicasts (trace w1)).
    { unfold w2. simpl. rewrite multicasts_app. simpl. now rewrite app_nil_r. }
    unfold bind.
    pose proof (reconcile_multicasts env response (t0 :: rest) w2) as Hr.
    destruct (reconcile env response (t0 :: rest) w2) as [[u|e] w3];
      cbn [snd] in Hr; cbv beta iota delta [ret bind consoleError snd].
    + now rewrite Hr, H2, H1.
    + cbn [trace emit]. rewrite multicasts_app. cbn [multicasts flat_map].
      rewrite app_nil_r. now rewrite Hr, H2, H1.
  - cbv beta iota delta [ret bind consoleError snd]. cbn [trace emit].
    rewrite multicasts_app. cbn [multicasts flat_map].
    rewrite app_nil_r. exact H1.
Qed.

(** X8: Whatever the request and whatever faults, the gateway is called at most
    once, and then with the tokens as fetched: a list that is not empty and
    holds no falsy value. *)
Theorem gateway_called_at_most_once (req : Request) (w : World) :
  (multicasts (trace (snd (sendNotification env req w))) = multicasts (trace w)
   \/ (listAll w <> []
       /\ multicasts (trace (snd (sendNotification env req w)))
          = multicasts (trace w) ++ [ (listAll w, message_of env req) ]))
  /\ (forall t, In t (listAll w) -> truthy t = true).
Proof.
  split.
  - destruct (multicasts_of_run req w) as [extra [Hm [He | [Hne He]]]];
      subst extra.
    + left. now rewrite app_nil_r in Hm.
    + right. auto.
  - intros t Ht. apply In_listAll in Ht. destruct Ht as [d [_ [_ H]]]. exact H.
Qed.

(** X9: The loop is entered on [failureCount > 0] alone: when the gateway
    reports no failure the handler answers 200 right after the send, with
    no lookup and no delete, whatever [responses] holds. *)
Theorem no_reported_failure_no_pruning (req : Request) (w : World)
  (tokens : list JValue) (response : BatchResponse) :
  broadcast env req w tokens response ->
  failureCount response <= 0 ->
  sendNotification env req w
  = (Ok (mkResponse 200 (sent_body response tokens)),
     sent_world env req w tokens response).
Proof.
  intros Hb Hf. rewrite (sendNotification_broadcast env req w tokens response Hb).
  unfold reconcile.
  destruct (Z.gtb_spec (failureCount response) 0); [lia|]. reflexivity.
Qed.

End BroadcastEdges.

(** X10: The tokens the loop visits are exactly the truthy tokens that sit at the
    index of a response with [success] false: a response beyond the end of
    [tokens] contributes nothing. *)
Theorem failedTokens_characterised (resps : list SendResponse)
  (tokens : list JValue) (t : JValue) :
  In t (failedTokens resps tokens) <->
  truthy t = true
  /\ exists idx r, nth_error resps idx = Some r /\ success r = false
                   /\ nth_error tokens idx = Some t.
Proof.
  split.
  - intros H. unfold failedTokens in H. apply filter_In in H.
    destruct H as [Hin Htr]. split; [exact Htr|].
    apply In_nth_error in Hin. destruct Hin as [idx Hidx].
    rewrite nth_error_map_idx in Hidx. simpl in Hidx.
    destruct (nth_error resps idx) as [r|] eqn:Er; [|discriminate].
    simpl in Hidx. inversion Hidx as [Ht]. clear Hidx.
    exists idx, r. split; [exact Er|].
    destruct (success r) eqn:Es.
    + subst t. discriminate.
    + split; [reflexivity|].
      destruct (Nat.lt_ge_cases idx (length tokens)) as [Hlt | Hge].
      * rewrite (nth_error_nth' tokens VUndefined Hlt). now rewrite Ht.
      * rewrite nth_overflow in Ht by exact Hge. subst t. discriminate.
  - intros [Htr [idx [r [Hr [Hs Ht]]]]].
    now apply failedTokens_In with (idx := idx) (r := r).
Qed.

Lemma listAll_after_filter (q : JValue -> bool) (docs : list TokenDoc) :
  filter truthy (map token (filter (fun d => q (token d)) docs))
  = filter q (filter truthy (map token docs)).
Proof.
  induction docs as [|d docs IH]; simpl; [reflexivity|].
  destruct (q (token d)) eqn:Eq; simpl.
  - destruct (truthy (token d)); simpl; [rewrite Eq|]; now rewrite IH.
  - destruct (truthy (token d)); simpl; [rewrite Eq|]; exact IH.
Qed.

(** X11: What a fetch sees once the deletes have landed: after a broadcast whose
    lookups work, whose gateway counts its failures and whose document ids
    are unique, and once the deletes it fired have been acknowledged, none
    of them rejected, [listAll] returns what it returned before without the
    tokens of the failed sends, in the same order. *)
Theorem next_fetch_after_broadcast (env : Env) (req : Request) (w : World)
  (tokens : list JValue) (response : BatchResponse) :
  broadcast env req w tokens response ->
  lookups_ok env -> deletes_ok env -> well_counted response ->
  NoDup (map docId (notification_tokens w)) ->
  listAll (acknowledged env (snd (sendNotification env req w)))
  = filter (fun t => negb (existsb (strict_eq t)
                             (failedTokens (responses response) tokens)))
           (listAll w).
Proof.
  intros Hb Hl Hd Hw Hnd.
  destruct (broadcast_pruning env req w tokens response Hb Hl Hw) as [_ Hp].
  unfold listAll. rewrite !collectTokens_spec.
  rewrite (pruning_acknowledged_exact env _ _ _ Hd Hnd Hp).
  apply (listAll_after_filter
           (fun t => negb (existsb (strict_eq t)
                             (failedTokens (responses response) tokens)))).
Qed.

(** ** The progress endpoint *)

Section Progress.

Variable env : Env.

(** X12: A progress report for one device goes to that device alone: the store
    is not read, the gateway gets one [send] with the device token and the
    progress as text, and the answer is 200, or 500 with the gateway's
    message when the gateway rejects the send.  The progress is a string, a
    boolean or an integer of at most [2^53] in magnitude, whose text is its
    decimal digits. *)
Theorem progress_to_one_device (req : Request) (w : World) :
  truthy (field "appId" (body req)) = true ->
  field "progress" (body req) <> VUndefined ->
  field "progress" (body req) <> VNull ->
  exact_text (field "progress" (body req)) = true ->
  truthy (field "deviceToken" (body req)) = true ->
  sendDownloadProgress env req w
  = match fcm_send env (trace w) (progressToDevice env req) with
    | None => (Ok progress_sent, emit (ESend (progressToDevice env req)) w)
    | Some e =>
        (Ok (mkResponse 500 (error_body e)),
         emit (EConsoleError "Error sending progress:" e)
           (emit (ESend (progressToDevice env req)) w))
    end.
Proof.
  intros Ha Hu Hn _ Hd. unfold sendDownloadProgress, try_catch. cbv zeta.
  rewrite Ha, Hd.
  assert (Hs : strict_eq (field "progress" (body req)) VUndefined = false).
  { destruct (strict_eq _ _) eqn:E; [|reflexivity].
    apply strict_eq_spec in E. contradiction. }
  rewrite Hs. cbn [negb orb].
  unfold bind at 1.
  assert (Hp : toStringOf (field "progress" (body req)) w
               = (Ok (toStr (field "progress" (body req))), w)).
  { destruct (field "progress" (body req)); try reflexivity; contradiction. }
  rewrite Hp. unfold bind, send. fold (progressToDevice env req).
  destruct (fcm_send env (trace w) (progressToDevice env req)); reflexivity.
Qed.

(** X13: A [progress] of [null] gets past the validation (only [undefined] is
    missing) and then fails on conversion: the request is never answered
    200 or 400 and nothing reaches the gateway. *)
Theorem null_progress_is_not_sent (req : Request) (w : World) :
  truthy (field "appId" (body req)) = true ->
  field "progress" (body req) = VNull ->
  exists r w',
    sendDownloadProgress env req w = (Ok r, w')
    /\ (status r = 500 \/ status r = 404)
    /\ filter is_gateway_call (trace w') = filter is_gateway_call (trace w).
Proof.
  intros Ha Hp. unfold sendDownloadProgress, try_catch. cbv zeta.
  rewrite Ha, Hp. cbn [negb orb strict_eq toStringOf].
  destruct (truthy (field "deviceToken" (body req))).
  - eexists; eexists. split; [reflexivity|]. split; [left; reflexivity|].
    simpl. rewrite filter_app. simpl. apply app_nil_r.
  - unfold bind at 1. unfold getTokens.
    destruct (tokensGet_fault env (trace w)).
    + eexists; eexists. split; [reflexivity|]. split; [left; reflexivity|].
      simpl. rewrite !filter_app. simpl. now rewrite !app_nil_r.
    + destruct (length (collectTokens (snapshot_of (notification_tokens w))) =? 0)%nat.
      * eexists; eexists. split; [reflexivity|]. split; [right; reflexivity|].
        simpl. rewrite !filter_app. simpl. now rewrite !app_nil_r.
      * eexists; eexists. split; [reflexivity|]. split; [left; reflexivity|].
        simpl. rewrite !filter_app. simpl. now rewrite !app_nil_r.
Qed.

(** X15: Without a device token the progress goes to every stored token in one
    multicast that carries data only; the answer is 200 with the gateway's
    two counts and, failed sends or not, no token is looked up or deleted.
    The progress is a string, a boolean or an integer of at most [2^53] in
    magnitude, whose text is its decimal digits. *)
Theorem progress_to_all_devices (req : Request) (w : World)
  (response : BatchResponse) :
  truthy (field "appId" (body req)) = true ->
  field "progress" (body req) <> VUndefined ->
  field "progress" (body req) <> VNull ->
  exact_text (field "progress" (body req)) = true ->
  truthy (field "deviceToken" (body req)) = false ->
  tokensGet_fault env (trace w) = None ->
  listAll w <> [] ->
  fcm_sendMulticast env (trace w ++ [EGetTokens]) (listAll w)
    (progressToAll env req) = Ok response ->
  sendDownloadProgress env req w
  = (Ok (progress_broadcast_sent response),
     emit (ESendMulticast (listAll w) (progressToAll env req))
       (emit EGetTokens w)).
Proof.
  intros Ha Hu Hn _ Hd Hg Hne Hs.
  unfold sendDownloadProgress, try_catch. cbv zeta.
  rewrite Ha, Hd.
  assert (Hq : strict_eq (field "progress" (body req)) VUndefined = false).
  { destruct (strict_eq _ _) eqn:E; [|reflexivity].
    apply strict_eq_spec in E. contradiction. }
  rewrite Hq. cbn [negb orb].
  unfold bind at 1. unfold getTokens. rewrite Hg.
  fold (listAll w). destruct (listAll w) as [|t0 rest] eqn:E; [contradiction|].
  cbn [length Nat.eqb]. unfold bind at 1.
  assert (Hp : forall w0, toStringOf (field "progress" (body req)) w0
                          = (Ok (toStr (field "progress" (body req))), w0)).
  { intros w0. destruct (field "progress" (body req)); try reflexivity;
      contradiction. }
  rewrite Hp. unfold bind, sendMulticast. fold (progressToAll env req).
  change (trace (emit EGetTokens w)) with (trace w ++ [EGetTokens]).
  rewrite Hs. reflexivity.
Qed.

End Progress.

(** ** The test endpoint *)

(** X3: A test send: without a truthy [token] the request is answered 400 and
    nothing is done; with one, the gateway gets exactly one [send] of the
    test message, and the answer is 200, or 500 with the gateway's message
    when the gateway rejects the send. *)
Theorem test_send_outcome (env : Env) (req : Request) (w : World) :
  method req = "POST" ->
  (truthy (field "token" (body req)) = false ->
   testNotification env req w = (Ok token_required, w))
  /\
  (truthy (field "token" (body req)) = true ->
   testNotification env req w
   = match fcm_send env (trace w)
             (testMessage env (field "token" (body req))
                (field "appName" (body req))) with
     | None =>
         (Ok test_sent,
          emit (ESend (testMessage env (field "token" (body req))
                         (field "appName" (body req)))) w)
     | Some e =>
         (Ok (mkResponse 500 (error_body e)),
          emit (EConsoleError "Error sending test notification:" e)
            (emit (ESend (testMessage env (field "token" (body req))
                            (field "appName" (body req)))) w))
     end).
Proof.
  intros Hm. unfold testNotification, try_catch. rewrite Hm. cbv zeta.
  split; intros Ht; rewrite Ht; cbn [negb String.eqb Ascii.eqb Bool.eqb].
  - reflexivity.
  - unfold bind, send. simpl.
    destruct (fcm_send env (trace w) _); reflexivity.
Qed.

(** ** The HTTP handlers always answer *)

Lemma returns_ret {A} (P : A -> Prop) (a : A) : P a -> returns P (ret a).
Proof. intros Hp w a' w' H. inversion H. now subst. Qed.

Lemma returns_bind {A B} (P : B -> Prop) (m : M A) (k : A -> M B) :
  (forall a, returns P (k a)) -> returns P (bind m k).
Proof.
  intros Hk w b w' H. unfold bind in H.
  destruct (m w) as [[a|e] w1]; [|discriminate].
  eapply Hk; eassumption.
Qed.

(** A handler whose [catch] answers 500 always answers, with a status its
    body returns or with 500. *)
Lemma caught_always_answers (P Q : Response -> Prop) (body : M Response)
  (label : string) (w : World) :
  returns P body ->
  (forall r, P r -> Q r) ->
  (forall r, status r = 500 -> Q r) ->
  exists r w',
    try_catch body
      (fun error => consoleError label error ;;
                    ret (mkResponse 500 (error_body error))) w
    = (Ok r, w')
    /\ Q r.
Proof.
  intros Hb Hp Hq. unfold try_catch.
  destruct (body w) as [[r|e] w1] eqn:E.
  - exists r, w1. split; [reflexivity|]. apply Hp. eapply Hb; eassumption.
  - eexists; eexists. split; [reflexivity|]. apply Hq. reflexivity.
Qed.

(** Splits the body of a handler into the answers it can return. *)
Ltac answers :=
  repeat (intros;
    match goal with
    | |- returns _ (bind _ _) => apply returns_bind
    | |- returns _ (ret _) => apply returns_ret; simpl; auto 10
    | |- returns _ (if ?b then _ else _) => destruct b
    | |- returns _ (match ?p with (_, _) => _ end) => destruct p
    end).

(** [cors] on a preflight, and on every other request. *)
Lemma cors_preflight (req : Request) (next : M Response) (w : World) :
  toUpperCase (method req) = "OPTIONS" ->
  cors req next w = (Ok preflight_answer, w).
Proof. intros Hm. unfold cors. rewrite Hm. reflexivity. Qed.

Lemma cors_calls_next (req : Request) (next : M Response) :
  toUpperCase (method req) <> "OPTIONS" -> cors req next = next.
Proof. intros Hm. apply String.eqb_neq in Hm. unfold cors. now rewrite Hm. Qed.

(** What [cors] adds to the answers of a handler: the 204 of a preflight. *)
Lemma cors_always_answers (Q : Response -> Prop) (req : Request)
  (next : M Response) (w : World) :
  Q preflight_answer ->
  (exists r w', next w = (Ok r, w') /\ Q r) ->
  exists r w', cors req next w = (Ok r, w') /\ Q r.
Proof.
  intros Hp Hn. unfold cors.
  destruct (String.eqb (toUpperCase (method req)) "OPTIONS"); [|exact Hn].
  exists preflight_answer, w. split; [reflexivity | exact Hp].
Qed.

(** X1: No failure of the store or of the gateway that a handler awaits
    escapes an exported HTTP function: whatever the request, each of the
    four answers, and with one of its own statuses, the 204 of [cors] to a
    preflight among them.  [sendNotification] fires deletes it does not
    await; its answer is stated for runs in which no delete is rejected. *)
Theorem http_handlers_always_answer (env : Env) (req : Request) (w : World) :
  (deletes_ok env ->
   exists r w', exports_sendNotification env req w = (Ok r, w')
                /\ In (status r) [200; 204; 400; 404; 405; 500])
  /\ (exists r w', exports_sendDownloadProgress env req w = (Ok r, w')
                   /\ In (status r) [200; 204; 400; 404; 500])
  /\ (exists r w', exports_getNotificationStats env req w = (Ok r, w')
                   /\ In (status r) [200; 204; 405; 500])
  /\ (exists r w', exports_testNotification env req w = (Ok r, w')
                   /\ In (status r) [200; 204; 400; 405; 500]).
Proof.
  split; [intros _|split; [|split]];
    apply cors_always_answers; try (simpl; auto 10).
  - unfold sendNotification. cbv zeta.
    apply (caught_always_answers (fun r => In (status r) [200; 400; 404; 405])).
    + answers.
    + simpl. intuition.
    + intros r Hr. rewrite Hr. simpl. auto 10.
  - unfold sendDownloadProgress. cbv zeta.
    apply (caught_always_answers (fun r => In (status r) [200; 400; 404])).
    + answers.
    + simpl. intuition.
    + intros r Hr. rewrite Hr. simpl. auto 10.
  - unfold getNotificationStats. cbv zeta.
    apply (caught_always_answers (fun r => In (status r) [200; 405])).
    + answers.
    + simpl. intuition.
    + intros r Hr. rewrite Hr. simpl. auto 10.
  - unfold testNotification. cbv zeta.
    apply (caught_always_answers (fun r => In (status r) [200; 400; 405])).
    + answers.
    + simpl. intuition.
    + intros r Hr. rewrite Hr. simpl. auto 10.
Qed.

(** X2: The method decides first, and leaves the world, trace included, as
    it was.  A preflight (OPTIONS) is answered 204 by [cors] and reaches no
    handler.  Of the other methods, [sendNotification] and
    [testNotification] take POST only and [getNotificationStats] GET only,
    and answer 405 otherwise, before the body is read.
    [sendDownloadProgress] has no such gate: it answers alike whatever the
    method, a preflight apart. *)
Theorem methods_are_gated (env : Env) (req : Request) (w : World) :
  (toUpperCase (method req) = "OPTIONS" ->
   exports_sendNotification env req w = (Ok preflight_answer, w)
   /\ exports_sendDownloadProgress env req w = (Ok preflight_answer, w)
   /\ exports_getNotificationStats env req w = (Ok preflight_answer, w)
   /\ exports_testNotification env req w = (Ok preflight_answer, w))
  /\ (toUpperCase (method req) <> "OPTIONS" -> method req <> "POST" ->
      exports_sendNotification env req w = (Ok method_not_allowed, w)
      /\ exports_testNotification env req w = (Ok method_not_allowed, w))
  /\ (toUpperCase (method req) <> "OPTIONS" -> method req <> "GET" ->
      exports_getNotificationStats env req w = (Ok method_not_allowed, w))
  /\ (forall m,
        toUpperCase (method req) <> "OPTIONS" ->
        toUpperCase m <> "OPTIONS" ->
        exports_sendDownloadProgress env (mkRequest m (body req)) w
        = exports_sendDownloadProgress env req w).
Proof.
  unfold exports_sendNotification, exports_sendDownloadProgress,
    exports_getNotificationStats, exports_testNotification.
  split; [|split; [|split]].
  - intros Ho. repeat split; now apply cors_preflight.
  - intros Ho Hm. rewrite !(cors_calls_next req _ Ho).
    apply String.eqb_neq in Hm.
    unfold sendNotification, testNotification, try_catch. rewrite Hm.
    split; reflexivity.
  - intros Ho Hm. rewrite (cors_calls_next req _ Ho).
    apply String.eqb_neq in Hm.
    unfold getNotificationStats, try_catch. rewrite Hm. reflexivity.
  - intros m Ho Hm. rewrite (cors_calls_next req _ Ho).
    rewrite (cors_calls_next (mkRequest m (body req)) _ Hm). reflexivity.
Qed.

(** ** The cleanup job, with faults *)

Lemma remove_matching_unique_ids (p : TokenDoc -> bool) (docs : list TokenDoc) :
  NoDup (map docId docs) ->
  remove_docs (map docId (filter p docs)) docs
  = filter (fun d => negb (p d)) docs.
Proof.
  intros Hnd. unfold remove_docs. apply filter_ext_in.
  intros d Hd. f_equal.
  destruct (p d) eqn:E.
  - apply existsb_exists. exists (docId d). split; [|apply String.eqb_refl].
    apply in_map. apply filter_In. auto.
  - destruct (existsb _ _) eqn:Ex; [|reflexivity].
    apply existsb_exists in Ex. destruct Ex as [id [Hid Heq]].
    apply String.eqb_eq in Heq.
    apply in_map_iff in Hid. destruct Hid as [d' [Hd' Hin']].
    apply filter_In in Hin'. destruct Hin' as [Hin' Hm].
    assert (d' = d) by (apply (docId_injective docs); auto; congruence).
    subst. congruence.
Qed.

Section CleanupFaults.

Variable env : Env.

(** Whatever faults, a run of the job leaves the tokens as they were or
    removes the documents older than the cutoff, all of them at once; the
    log is never written. *)
Lemma cleanupTokens_all_or_nothing (w : World) :
  (notification_tokens (snd (cleanupTokens env w)) = notification_tokens w
   \/ notification_tokens (snd (cleanupTokens env w))
      = remove_docs
          (map docId (filter (older_than (cleanup_cutoff env))
                             (notification_tokens w)))
          (notification_tokens w))
  /\ notification_logs (snd (cleanupTokens env w)) = notification_logs w.
Proof.
  unfold cleanupTokens, try_catch, bind, consoleLog, consoleError, queryAged,
    throw, ret, cleanup_cutoff. cbv zeta.
  destruct (agedQuery_fault env _); cbn [fst snd notification_tokens emit].
  { split; [left|]; reflexivity. }
  rewrite queueDeletes_spec. unfold batchCommit.
  destruct (batchCommit_fault env _ _);
    cbn [fst snd notification_tokens notification_logs emit set_tokens].
  { split; [left|]; reflexivity. }
  split; [right|reflexivity].
  unfold snapshot_of. rewrite map_map. reflexivity.
Qed.

(** X20: The job deletes by age and by nothing else.  With document ids that are
    unique, a document that is not older than the cutoff, or has no
    [timestamp] at all, survives every run, faults or not; and when the
    query and the commit work, what is left is exactly the documents that
    are not older than the cutoff. *)
Theorem cleanup_spares_the_rest (w : World) :
  NoDup (map docId (notification_tokens w)) ->
  (forall d, In d (notification_tokens w) ->
             older_than (cleanup_cutoff env) d = false ->
             In d (notification_tokens (snd (cleanupTokens env w))))
  /\ ((forall tr, agedQuery_fault env tr = None) ->
      (forall tr ids, batchCommit_fault env tr ids = None) ->
      notification_tokens (snd (cleanupTokens env w))
      = filter (fun d => negb (older_than (cleanup_cutoff env) d))
               (notification_tokens w)).
Proof.
  intros Hnd. split.
  - intros d Hd Hold.
    destruct (cleanupTokens_all_or_nothing w) as [[H | H] _]; rewrite H.
    + exact Hd.
    + rewrite remove_matching_unique_ids by exact Hnd.
      apply filter_In. split; [exact Hd | now rewrite Hold].
  - intros Hq Hc.
    destruct (cleanupTokens_run env Hq Hc w) as [tr Hrun]. cbv zeta in Hrun.
    rewrite Hrun. cbn [snd notification_tokens].
    apply remove_matching_unique_ids. exact Hnd.
Qed.

(** X19: A failure of the job is never swallowed and never half done: whenever
    it throws, the message is the one of the rejected query or commit, it
    has been written to the console as the last thing done, and the store is
    as it was. *)
Theorem cleanup_failure_is_resignalled (w w' : World) (e : string) :
  cleanupTokens env w = (Throw e, w') ->
  notification_tokens w' = notification_tokens w
  /\ notification_logs w' = notification_logs w
  /\ exists tr, trace w' = tr ++ [ EConsoleError "Error cleaning up tokens:" e ].
Proof.
  unfold cleanupTokens, try_catch, bind, consoleLog, consoleError, queryAged,
    batchCommit, throw, ret.
  cbv zeta. by_cases_of_run; intros H; inversion H; subst;
    (split; [reflexivity | split; [reflexivity | eexists; reflexivity]]).
Qed.

End CleanupFaults.

(** ** What the trigger logs, the statistics read back *)

Lemma total_app (a b : list Z) : total (a ++ b) = total a + total b.
Proof.
  unfold total. induction a as [|x a IH]; simpl; [reflexivity|].
  fold (total (a ++ b)) in *. fold (total a) in *. lia.
Qed.

Lemma getNotificationStats_run (env : Env) (req : Request) (w : World) :
  method req = "GET" ->
  (forall tr, tokensGet_fault env tr = None) ->
  (forall tr, logsQuery_fault env tr = None) ->
  fst (getNotificationStats env req w)
  = Ok (mkResponse 200
          (stats_body
             (Z.of_nat (length (notification_tokens w)))
             (total (map (fun l => orZero (sentCount l))
                       (filter (newer_than (now env - thirty_days_ms))
                               (notification_logs w))))
             (total (map (fun l => orZero (log_failureCount l))
                       (filter (newer_than (now env - thirty_days_ms))
                               (notification_logs w)))))).
Proof.
  intros Hm Hg Hq.
  unfold getNotificationStats, try_catch. rewrite Hm. simpl.
  unfold bind, getTokens. rewrite Hg. unfold queryLogs. rewrite Hq.
  cbn [notification_logs emit]. rewrite sumLogs_total. simpl.
  unfold snapshot_of. rewrite length_map. reflexivity.
Qed.

(** X22: An update notification that went through shows in the statistics asked
    for at the same clock reading: the two totals of the last thirty days
    are what they were plus the two counts of this send.  The counts of the
    log and of the send are not negative and the new totals add up to at
    most [2^53], so that the sums of doubles are the sums of integers. *)
Theorem logged_send_shows_in_stats (env : Env) (change : Change)
  (context : EventContext) (w : World) (response : BatchResponse)
  (req : Request) :
  field "version" (before change) <> field "version" (after change) ->
  (forall tr, tokensGet_fault env tr = None) ->
  (forall tr, logAdd_fault env tr = None) ->
  (forall tr, logsQuery_fault env tr = None) ->
  listAll w <> [] ->
  (forall tr, fcm_sendMulticast env tr (listAll w)
                (updateMessage env (params_appId context) (after change))
              = Ok response) ->
  method req = "GET" ->
  let recent := filter (newer_than (now env - thirty_days_ms))
                       (notification_logs w) in
  (forall l, In l recent ->
     0 <= orZero (sentCount l) /\ 0 <= orZero (log_failureCount l)) ->
  0 <= successCount response ->
  0 <= failureCount response ->
  total (map (fun l => orZero (sentCount l)) recent) + successCount response
  + (total (map (fun l => orZero (log_failureCount l)) recent)
     + failureCount response) <= 2 ^ 53 ->
  fst (getNotificationStats env req
         (snd (notifyOnAppUpdate env change context w)))
  = Ok (mkResponse 200
          (stats_body
             (Z.of_nat (length (notification_tokens w)))
             (total (map (fun l => orZero (sentCount l)) recent)
              + successCount response)
             (total (map (fun l => orZero (log_failureCount l)) recent)
              + failureCount response))).
Proof.
  intros Hv Hg Hl Hq Hne Hs Hm recent _ _ _ _.
  destruct (update_run env change context w response Hv Hg Hl Hne Hs)
    as [w' [Hrun [Htok [Hlog _]]]].
  rewrite Hrun. cbn [snd].
  rewrite (getNotificationStats_run env req w' Hm Hg Hq).
  rewrite Htok, Hlog, filter_app. cbn [filter].
  assert (Hnew : newer_than (now env - thirty_days_ms)
                   (update_entry env change context response) = true).
  { unfold newer_than, update_entry, thirty_days_ms. simpl.
    apply Z.ltb_lt. lia. }
  rewrite Hnew, !map_app, !total_app. fold recent.
  unfold update_entry, total. simpl. rewrite !Z.add_0_r. reflexivity.
Qed.

(** ** The service worker *)

Lemma jor_truthy (a d : JValue) : truthy d = true -> truthy (jor a d) = true.
Proof. intros Hd. unfold jor. destruct (truthy a) eqn:E; assumption. Qed.

Lemma jor_keeps_truthy (a d : JValue) : truthy a = true -> jor a d = a.
Proof. intros Ha. unfold jor. now rewrite Ha. Qed.

Lemma jor_text_defined (a : JValue) :
  jor a (VStr "") <> VUndefined /\ jor a (VStr "") <> VNull.
Proof.
  unfold jor. destruct (truthy a) eqn:E; [|split; discriminate].
  destruct a; simpl in E; try discriminate; split; discriminate.
Qed.

(** X23: A background message is always shown, once, and never blank: the
    title, the body and the icon of the notification are truthy whatever
    the payload holds, those the sender gave are kept, and the four data
    fields handed to the click handler are never [undefined] or [null]. *)
Theorem background_notification_is_never_blank (clock : Z) (payload : Payload) :
  exists title options,
    onBackgroundMessage clock payload
    = [ SWConsoleLog "Background message received:";
        SWShowNotification title options ]
    /\ truthy title = true
    /\ truthy (opt_body options) = true
    /\ truthy (opt_icon options) = true
    /\ (truthy (optField "title" (payload_notification payload)) = true ->
        title = optField "title" (payload_notification payload))
    /\ (truthy (optField "body" (payload_notification payload)) = true ->
        opt_body options = optField "body" (payload_notification payload))
    /\ (forall v, In v [ data_appId (opt_data options);
                         data_downloadUrl (opt_data options);
                         data_appName (opt_data options);
                         data_appIcon (opt_data options) ] ->
                  v <> VUndefined /\ v <> VNull).
Proof.
  eexists; eexists. split; [reflexivity|].
  cbn [opt_body opt_icon opt_data data_appId data_downloadUrl data_appName
       data_appIcon].
  repeat split; try (apply jor_truthy; reflexivity);
    try (apply jor_keeps_truthy; assumption).
  - destruct H as [H | [H | [H | [H | []]]]]; subst v; apply jor_text_defined.
  - destruct H as [H | [H | [H | [H | []]]]]; subst v; apply jor_text_defined.
Qed.

Lemma prefix_spec (sub s : string) :
  String.prefix sub s = true <-> exists rest, s = (sub ++ rest)%string.
Proof.
  revert s. induction sub as [|c sub IH]; intros s; simpl.
  - split; [intros _; exists s; reflexivity | destruct s; reflexivity].
  - destruct s as [|c' s]; simpl.
    + split; [discriminate | intros [rest H]; discriminate].
    + destruct (Ascii.ascii_dec c c') as [Hc | Hc].
      * subst c'. rewrite IH. split; intros [rest H]; exists rest.
        -- now rewrite H.
        -- now inversion H.
      * split; [discriminate|]. intros [rest H]. inversion H. congruence.
Qed.

(** [includes] is containment: [sub] occurs somewhere in [s]. *)
Lemma includes_spec (sub s : string) :
  includes sub s = true
  <-> exists left right, s = (left ++ sub ++ right)%string.
Proof.
  induction s as [|c s IH].
  - change (includes sub "")
      with (if String.prefix sub "" then true else false).
    destruct (String.prefix sub "") eqn:E.
    + split; [|reflexivity]. intros _. apply prefix_spec in E.
      destruct E as [rest E]. exists ""%string, rest. exact E.
    + split; [discriminate|]. intros [l [r H]].
      destruct l; simpl in H; [|discriminate].
      assert (String.prefix sub "" = true) by (apply prefix_spec; eauto).
      congruence.
  - change (includes sub (String c s))
      with (if String.prefix sub (String c s) then true else includes sub s).
    destruct (String.prefix sub (String c s)) eqn:E.
    + split; [|reflexivity]. intros _. apply prefix_spec in E.
      destruct E as [rest E]. exists ""%string, rest. exact E.
    + rewrite IH. split.
      * intros [l [r H]]. exists (String c l), r. simpl. now rewrite H.
      * intros [l [r H]]. destruct l as [|c' l]; simpl in H.
        -- assert (String.prefix sub (String c s) = true)
             by (apply prefix_spec; eauto).
           congruence.
        -- inversion H. eauto.
Qed.

Lemma firstAppWindow_found (skipped rest : list WindowClient)
  (client : WindowClient) :
  (forall c, In c skipped -> is_app_window c = false) ->
  is_app_window client = true ->
  firstAppWindow (skipped ++ client :: rest) = Some client.
Proof.
  intros Hs Hc. induction skipped as [|c skipped IH]; simpl.
  - now rewrite Hc.
  - rewrite (Hs c) by (now left). apply IH. intros c' Hc'. apply Hs. now right.
Qed.

Lemma firstAppWindow_none (clientList : list WindowClient) :
  (forall c, In c clientList -> is_app_window c = false) ->
  firstAppWindow clientList = None.
Proof.
  induction clientList as [|c l IH]; simpl; intros H; [reflexivity|].
  rewrite (H c) by (now left). apply IH. intros c' Hc'. apply H. now right.
Qed.

(** X24: The Dismiss action, and any action other than [open], only closes the
    notification: no window is looked for, focused or opened, no message is
    posted and [waitUntil] is not called. *)
Theorem click_dismiss_only_closes (browser : Browser) (event : ClickEvent) :
  click_action event <> "open" ->
  click_action event <> "" ->
  notificationclick browser event
  = ([ SWConsoleLog "Notification clicked:"; SWCloseNotification ], None).
Proof.
  intros Ho He. unfold notificationclick.
  apply String.eqb_neq in Ho. apply String.eqb_neq in He.
  rewrite Ho, He. reflexivity.
Qed.

(** X25: A click on the notification or on Download, with the application open:
    the first window of the list whose URL is ["/"] or contains
    ["index.html"] is focused and gets the click message with the data of
    the notification; later windows are not touched and no window is
    opened. *)
Theorem click_focuses_first_app_window (browser : Browser) (event : ClickEvent)
  (skipped rest : list WindowClient) (client : WindowClient) :
  click_action event = "open" \/ click_action event = "" ->
  matchAll_result browser = Ok (skipped ++ client :: rest) ->
  (forall c, In c skipped -> is_app_window c = false) ->
  is_app_window client = true ->
  notificationclick browser event
  = ([ SWConsoleLog "Notification clicked:"; SWCloseNotification;
       SWMatchAll;
       SWFocus (client_id client);
       SWPostMessage (client_id client) "NOTIFICATION_CLICKED"
         (click_data event) ],
     Some (Ok (Some client))).
Proof.
  intros Ha Hm Hs Hc. unfold notificationclick.
  assert (Hopen : String.eqb (click_action event) "open"
                  || String.eqb (click_action event) "" = true).
  { destruct Ha as [Ha | Ha]; rewrite Ha; reflexivity. }
  rewrite Hopen, Hm, (firstAppWindow_found skipped rest client Hs Hc).
  reflexivity.
Qed.

(** X26: The same click with no window of the application open: one window is
    opened at ["/"], and it gets the click message when the browser hands
    it over; when [openWindow] resolves to nothing, no message is posted. *)
Theorem click_opens_a_window (browser : Browser) (event : ClickEvent)
  (clientList : list WindowClient) (opened : option WindowClient) :
  click_action event = "open" \/ click_action event = "" ->
  matchAll_result browser = Ok clientList ->
  (forall c, In c clientList -> is_app_window c = false) ->
  openWindow_exists browser = true ->
  openWindow_result browser "/" = Ok opened ->
  notificationclick browser event
  = ([ SWConsoleLog "Notification clicked:"; SWCloseNotification;
       SWMatchAll; SWOpenWindow "/" ]
     ++ match opened with
        | Some client =>
            [ SWPostMessage (client_id client) "NOTIFICATION_CLICKED"
                (click_data event) ]
        | None => []
        end,
     Some (Ok opened)).
Proof.
  intros Ha Hm Hs He Ho. unfold notificationclick.
  assert (Hopen : String.eqb (click_action event) "open"
                  || String.eqb (click_action event) "" = true).
  { destruct Ha as [Ha | Ha]; rewrite Ha; reflexivity. }
  rewrite Hopen, Hm, (firstAppWindow_none clientList Hs), He, Ho.
  destruct opened; reflexivity.
Qed.

(** X27: Whatever the browser answers and whatever was clicked, the notification
    is closed first, at most one message is posted, and a window is opened
    only at ["/"] and only when none was focused. *)
Theorem click_posts_at_most_once (browser : Browser) (event : ClickEvent) :
  (exists rest,
     fst (notificationclick browser event)
     = [ SWConsoleLog "Notification clicked:"; SWCloseNotification ] ++ rest)
  /\ (posts (fst (notificationclick browser event)) <= 1)%nat
  /\ (forall url, In (SWOpenWindow url) (fst (notificationclick browser event)) ->
                  url = "/"
                  /\ forall id, ~ In (SWFocus id)
                                    (fst (notificationclick browser event))).
Proof.
  unfold notificationclick.
  destruct (String.eqb (click_action event) "open"
            || String.eqb (click_action event) "");
    [destruct (matchAll_result browser) as [clientList|e];
     [destruct (firstAppWindow clientList);
      [|destruct (openWindow_exists browser);
        [destruct (openWindow_result browser "/") as [[c|]|e]|]]|]|];
    (split; [eexists; reflexivity|]); (split; [cbn; lia|]);
    intros url Hin; cbn in Hin;
    repeat (destruct Hin as [Hin | Hin]; try discriminate);
    try contradiction;
    inversion Hin; subst; (split; [reflexivity|]);
    intros id Hf; cbn in Hf;
    repeat (destruct Hf as [Hf | Hf]; try discriminate); contradiction.
Qed.

(** ** The properties above, run on sample inputs *)

Lemma http_handlers_always_answer_witness :
  exists r w',
    exports_sendNotification (steady_env 0 (Ok one_lost)) update_request
      two_devices = (Ok r, w')
    /\ In (status r) [200; 204; 400; 404; 405; 500].
Proof.
  apply (http_handlers_always_answer (steady_env 0 (Ok one_lost)) update_request
           two_devices).
  intros tr id. reflexivity.
Defined.

Lemma methods_are_gated_witness :
  exports_sendNotification (steady_env 0 (Throw "down"))
    (mkRequest "GET" (body update_request)) two_devices
  = (Ok method_not_allowed, two_devices)
  /\ exports_getNotificationStats (steady_env 0 (Throw "down"))
       (mkRequest "POST" []) two_devices
     = (Ok method_not_allowed, two_devices)
  /\ exports_testNotification (steady_env 0 (Throw "down"))
       (mkRequest "OPTIONS" []) two_devices
     = (Ok preflight_answer, two_devices).
Proof.
  split; [|split].
  - apply (methods_are_gated (steady_env 0 (Throw "down"))
             (mkRequest "GET" (body update_request)) two_devices);
      discriminate.
  - apply (methods_are_gated (steady_env 0 (Throw "down"))
             (mkRequest "POST" []) two_devices); discriminate.
  - apply (methods_are_gated (steady_env 0 (Throw "down"))
             (mkRequest "OPTIONS" []) two_devices). reflexivity.
Defined.

Lemma test_send_outcome_witness :
  testNotification (steady_env 0 (Throw "down")) test_request empty_world
  = (Ok test_sent,
     emit (ESend (testMessage (steady_env 0 (Throw "down")) (VStr "A") VUndefined))
       empty_world).
Proof.
  apply (test_send_outcome (steady_env 0 (Throw "down")) test_request empty_world);
    reflexivity.
Defined.

Lemma fetch_fault_is_500_witness :
  sendNotification (store_down_env 0 (Ok one_lost)) update_request two_devices
  = (Ok (mkResponse 500 (error_body "UNAVAILABLE")),
     emit (EConsoleError "Error sending notification:" "UNAVAILABLE")
       (emit EGetTokens two_devices)).
Proof.
  apply (fetch_fault_is_500 (store_down_env 0 (Ok one_lost)) update_request
           two_devices "UNAVAILABLE"); reflexivity.
Defined.

Lemma gateway_fault_is_500_witness :
  sendNotification (steady_env 0 (Throw "down")) update_request two_devices
  = (Ok (mkResponse 500 (error_body "down")),
     emit (EConsoleError "Error sending notification:" "down")
       (emit (ESendMulticast (listAll two_devices)
                (message_of (steady_env 0 (Throw "down")) update_request))
          (emit EGetTokens two_devices))).
Proof.
  apply (gateway_fault_is_500 (steady_env 0 (Throw "down")) update_request
           two_devices "down"); try reflexivity. discriminate.
Defined.

Lemma no_reported_failure_no_pruning_witness :
  sendNotification (steady_env 0 (Ok miscounted)) update_request two_devices
  = (Ok (mkResponse 200 (sent_body miscounted [ VStr "A"; VStr "B" ])),
     sent_world (steady_env 0 (Ok miscounted)) update_request two_devices
       [ VStr "A"; VStr "B" ] miscounted).
Proof.
  apply (no_reported_failure_no_pruning (steady_env 0 (Ok miscounted))
           update_request two_devices [ VStr "A"; VStr "B" ] miscounted).
  - repeat split; try reflexivity. discriminate.
  - simpl. lia.
Defined.

Lemma next_fetch_after_broadcast_witness :
  listAll (acknowledged (steady_env 0 (Ok one_lost))
             (snd (sendNotification (steady_env 0 (Ok one_lost)) update_request
                     two_devices)))
  = filter (fun t => negb (existsb (strict_eq t)
                             (failedTokens (responses one_lost)
                                [ VStr "A"; VStr "B" ])))
           (listAll two_devices).
Proof.
  apply (next_fetch_after_broadcast (steady_env 0 (Ok one_lost)) update_request
           two_devices [ VStr "A"; VStr "B" ] one_lost).
  - repeat split; try reflexivity. discriminate.
  - intros tr v. reflexivity.
  - intros tr id. reflexivity.
  - split; reflexivity.
  - simpl. repeat constructor; simpl; intuition discriminate.
Defined.

Lemma progress_to_one_device_witness :
  sendDownloadProgress (steady_env 0 (Throw "down")) progress_to_device
    two_devices
  = (Ok progress_sent,
     emit (ESend (progressToDevice (steady_env 0 (Throw "down"))
                    progress_to_device)) two_devices).
Proof.
  apply (progress_to_one_device (steady_env 0 (Throw "down")) progress_to_device
           two_devices); try reflexivity; discriminate.
Defined.

Lemma null_progress_is_not_sent_witness :
  exists r w',
    sendDownloadProgress (steady_env 0 (Ok one_lost)) null_progress two_devices
    = (Ok r, w')
    /\ (status r = 500 \/ status r = 404)
    /\ filter is_gateway_call (trace w')
       = filter is_gateway_call (trace two_devices).
Proof.
  apply (null_progress_is_not_sent (steady_env 0 (Ok one_lost)) null_progress
           two_devices); reflexivity.
Defined.

Lemma progress_to_all_devices_witness :
  sendDownloadProgress (steady_env 0 (Ok one_busy)) progress_request two_devices
  = (Ok (progress_broadcast_sent one_busy),
     emit (ESendMulticast (listAll two_devices)
             (progressToAll (steady_env 0 (Ok one_busy)) progress_request))
       (emit EGetTokens two_devices)).
Proof.
  apply (progress_to_all_devices (steady_env 0 (Ok one_busy)) progress_request
           two_devices one_busy); try reflexivity; discriminate.
Defined.

Lemma update_is_logged_witness :
  fst (notifyOnAppUpdate (steady_env 7 (Ok all_three_delivered))
         new_version_change (mkEventContext "mirror") three_devices)
  = Ok (Some all_three_delivered).
Proof.
  apply (update_is_logged (steady_env 7 (Ok all_three_delivered))
           new_version_change (mkEventContext "mirror") three_devices
           all_three_delivered); try (intros; reflexivity); discriminate.
Defined.

Lemma update_failure_is_resignalled_witness :
  notification_logs
    (snd (notifyOnAppUpdate (steady_env 7 (Throw "down")) new_version_change
            (mkEventContext "mirror") three_devices))
  = notification_logs three_devices.
Proof.
  apply (update_failure_is_resignalled (steady_env 7 (Throw "down"))
           new_version_change (mkEventContext "mirror") three_devices
           (snd (notifyOnAppUpdate (steady_env 7 (Throw "down"))
                   new_version_change (mkEventContext "mirror") three_devices))
           "down").
  reflexivity.
Defined.

Lemma cleanup_failure_is_resignalled_witness :
  notification_tokens
    (snd (cleanupTokens (commit_down_env (ninety_days_ms + 10)) old_and_new))
  = notification_tokens old_and_new.
Proof.
  apply (cleanup_failure_is_resignalled (commit_down_env (ninety_days_ms + 10))
           old_and_new
           (snd (cleanupTokens (commit_down_env (ninety_days_ms + 10)) old_and_new))
           "ABORTED").
  reflexivity.
Defined.

Lemma cleanup_spares_the_rest_witness :
  In (mkTokenDoc "d2" (VStr "B") (Some ninety_days_ms))
     (notification_tokens
        (snd (cleanupTokens (steady_env (ninety_days_ms + 10) (Throw "down"))
                old_and_new))).
Proof.
  apply (cleanup_spares_the_rest (steady_env (ninety_days_ms + 10) (Throw "down"))
           old_and_new).
  - simpl. repeat constructor; simpl; intuition discriminate.
  - right. left. reflexivity.
  - reflexivity.
Defined.

Lemma logged_send_shows_in_stats_witness :
  fst (getNotificationStats (steady_env 7 (Ok all_three_delivered)) stats_request
         (snd (notifyOnAppUpdate (steady_env 7 (Ok all_three_delivered))
                 new_version_change (mkEventContext "mirror") three_devices)))
  = Ok (mkResponse 200 (stats_body 3 (0 + 3) (0 + 0))).
Proof.
  apply (logged_send_shows_in_stats (steady_env 7 (Ok all_three_delivered))
           new_version_change (mkEventContext "mirror") three_devices
           all_three_delivered stats_request);
    try (intros; reflexivity); try discriminate.
  intros l Hl. simpl in Hl.
  repeat (destruct Hl as [Hl | Hl]; [subst l; simpl; lia|]).
  destruct Hl.
Defined.

Lemma click_dismiss_only_closes_witness :
  notificationclick (browser_with three_windows) dismiss_click
  = ([ SWConsoleLog "Notification clicked:"; SWCloseNotification ], None).
Proof.
  apply (click_dismiss_only_closes (browser_with three_windows) dismiss_click);
    discriminate.
Defined.

Lemma click_focuses_first_app_window_witness :
  notificationclick (browser_with three_windows) open_click
  = ([ SWConsoleLog "Notification clicked:"; SWCloseNotification;
       SWMatchAll; SWFocus 2;
       SWPostMessage 2 "NOTIFICATION_CLICKED" sample_data ],
     Some (Ok (Some (mkWindowClient 2 "https://example.org/index.html")))).
Proof.
  apply (click_focuses_first_app_window (browser_with three_windows) open_click
           [ mkWindowClient 1 "https://example.org/about" ]
           [ mkWindowClient 3 "/" ]
           (mkWindowClient 2 "https://example.org/index.html")).
  - left. reflexivity.
  - reflexivity.
  - intros c [Hc | []]. subst c. reflexivity.
  - reflexivity.
Defined.

Lemma click_opens_a_window_witness :
  notificationclick
    (browser_with [ mkWindowClient 1 "https://example.org/about" ]) open_click
  = ([ SWConsoleLog "Notification clicked:"; SWCloseNotification;
       SWMatchAll; SWOpenWindow "/";
       SWPostMessage 9 "NOTIFICATION_CLICKED" sample_data ],
     Some (Ok (Some (mkWindowClient 9 "/")))).
Proof.
  apply (click_opens_a_window
           (browser_with [ mkWindowClient 1 "https://example.org/about" ])
           open_click [ mkWindowClient 1 "https://example.org/about" ]
           (Some (mkWindowClient 9 "/"))).
  - left. reflexivity.
  - reflexivity.
  - intros c [Hc | []]. subst c. reflexivity.
  - reflexivity.
  - reflexivity.
Defined.
